(** * servernodejs: the Express gateway of [server.js]

    A shallow embedding of the request handlers of [server.js] together with
    the part of the JavaScript runtime they rely on (truthiness, strict
    equality, property lookup through [Object.prototype], [isNaN],
    [parseFloat], string conversion), followed by the properties of the
    handlers. *)

From Stdlib Require Import ZArith List String Ascii Bool Lia.
From Stdlib Require Import Floats.
Import ListNotations.

Local Open Scope Z_scope.

(** ** JavaScript numbers

    A Number is an IEEE 754 binary64 value: the kernel's [float].  The
    conversions between decimal text and binary64 are computed on exact
    integers and rounded once, to nearest, ties to even. *)
Module JsNumber.

Definition number := float.

(** The binary64 nearest to [num / den], for [0 <= num] and [0 < den]. *)
Definition of_ratio (neg : bool) (num den : Z) : number :=
  match num with
  | Z0 => if neg then neg_zero else zero
  | Zpos _ =>
      let '(q, e, l) := SFdiv_core_binary prec emax num 0 den 0 in
      SF2Prim (binary_round_aux prec emax neg q e l)
  | Zneg _ => nan
  end.

(** The binary64 nearest to [m * 10 ^ e10]. *)
Definition of_decimal (neg : bool) (m e10 : Z) : number :=
  if 0 <=? e10 then of_ratio neg (m * 10 ^ e10) 1
  else of_ratio neg m (10 ^ (- e10)).

Definition isNaN (x : number) : bool := is_nan x.

(** [x] is [+0], [-0] or [NaN]: the numbers that are falsy. *)
Definition falsy (x : number) : bool := is_zero x || is_nan x.

(** *** Number::toString, radix 10 *)

(** A positive finite [m * 2 ^ e] as a fraction. *)
Definition fraction (m : positive) (e : Z) : Z * Z :=
  if 0 <=? e then (Zpos m * 2 ^ e, 1) else (Zpos m, 2 ^ (- e)).

(** [num / den < 10 ^ n] *)
Definition below_pow10 (num den n : Z) : bool :=
  if 0 <=? n then num <? den * 10 ^ n else num * 10 ^ (- n) <? den.

Fixpoint search_n (fuel : nat) (num den n : Z) : Z :=
  match fuel with
  | O => n
  | S f => if below_pow10 num den n then n else search_n f num den (n + 1)
  end.

(** The least [n] with [m * 2 ^ e < 10 ^ n]; the search starts just below
    an estimate taken from the binary magnitude. *)
Definition decimal_magnitude (m : positive) (e : Z) : Z :=
  let '(num, den) := fraction m e in
  let b := Zpos (digits2_pos m) + e in
  search_n 8 num den ((b - 1) * 30103 / 100000 - 1).

(** [x / 10 ^ d] as a fraction, for [x = num / den]. *)
Definition scaled (num den d : Z) : Z * Z :=
  if 0 <=? d then (num, den * 10 ^ d) else (num * 10 ^ (- d), den).

(** The [k]-digit significand, if one exists, whose value at exponent
    [n - k] reads back as [x]; of two, the nearer one, and the even one on
    a tie. *)
Definition significand (x : number) (num den n k : Z) : option Z :=
  let '(p, q) := scaled num den (n - k) in
  let lo := p / q in
  let hi := lo + 1 in
  let ok s := PrimFloat.eqb (of_decimal false s (n - k)) x in
  match ok lo, ok hi with
  | true, true =>
      match 2 * p ?= (2 * lo + 1) * q with
      | Lt => Some lo
      | Gt => Some hi
      | Eq => Some (if Z.even lo then lo else hi)
      end
  | true, false => Some lo
  | false, true => Some hi
  | false, false => None
  end.

Fixpoint shortest (fuel : nat) (x : number) (num den n k : Z) : Z * Z :=
  match fuel with
  | O => (fst (scaled num den (n - k)) / snd (scaled num den (n - k)), n - k)
  | S f =>
      match significand x num den n k with
      | Some s => (s, n - k)
      | None => shortest f x num den n (k + 1)
      end
  end.

(** Drop the trailing zeros of a significand into its exponent. *)
Fixpoint strip_zeros (fuel : nat) (s d : Z) : Z * Z :=
  match fuel with
  | O => (s, d)
  | S f => if (s mod 10 =? 0) && (0 <? s) then strip_zeros f (s / 10) (d + 1)
           else (s, d)
  end.

Definition digit_char (d : Z) : ascii := ascii_of_N (Z.to_N (48 + d)).

Fixpoint digits_rev (fuel : nat) (s : Z) : list ascii :=
  match fuel with
  | O => []
  | S f => if s <? 10 then [digit_char s]
           else digit_char (s mod 10) :: digits_rev f (s / 10)
  end.

(** The decimal digits of a non-negative integer. *)
Definition digits_of (s : Z) : list ascii :=
  rev (digits_rev (S (Z.to_nat (Z.log2 s))) s).

Definition zeros (n : Z) : list ascii := repeat "0"%char (Z.to_nat n).

Definition text (l : list ascii) : string := string_of_list_ascii l.

(** Steps 5 to 7 of Number::toString for a positive finite value. *)
Definition positive_to_string (x : number) (m : positive) (e : Z) : string :=
  let '(num, den) := fraction m e in
  let n0 := decimal_magnitude m e in
  let '(s0, d0) := shortest 17 x num den n0 1 in
  let '(s, d) := strip_zeros 400 s0 d0 in
  let ds := digits_of s in
  let k := Z.of_nat (List.length ds) in
  let n := d + k in
  if (k <=? n) && (n <=? 21) then text (ds ++ zeros (n - k))
  else if (0 <? n) && (n <=? 21) then
    text (firstn (Z.to_nat n) ds ++ "."%char :: skipn (Z.to_nat n) ds)
  else if (-6 <? n) && (n <=? 0) then
    text ("0"%char :: "."%char :: zeros (- n) ++ ds)
  else
    let ex := n - 1 in
    let sign := if 0 <=? ex then "+"%char else "-"%char in
    let tail := "e"%char :: sign :: digits_of (Z.abs ex) in
    match ds with
    | [] => text tail
    | [c] => text (c :: tail)
    | c :: more => text (c :: "."%char :: more ++ tail)
    end.

Definition toString (x : number) : string :=
  match Prim2SF x with
  | S754_nan => "NaN"
  | S754_zero _ => "0"
  | S754_infinity false => "Infinity"
  | S754_infinity true => "-Infinity"
  | S754_finite false m e => positive_to_string x m e
  | S754_finite true m e => String "-" (positive_to_string (- x)%float m e)
  end.

End JsNumber.

(** ** Number literals in strings

    A String is held as its UTF-8 bytes.  [StringToNumber] reads a whole
    StringNumericLiteral; [parseFloat] reads the longest prefix that is a
    StrDecimalLiteral. *)
Module JsString.
Import JsNumber.
Local Open Scope N_scope.

Definition bytes (s : string) : list N :=
  map N_of_ascii (list_ascii_of_string s).

(** Remove leading StrWhiteSpaceChar: TAB, LF, VT, FF, CR, SP, U+00A0,
    U+1680, U+2000..U+200A, U+2028, U+2029, U+202F, U+205F, U+3000,
    U+FEFF. *)
Fixpoint skip_ws (l : list N) : list N :=
  match l with
  | (9 | 10 | 11 | 12 | 13 | 32) :: r => skip_ws r
  | 194 :: 160 :: r => skip_ws r
  | 225 :: 154 :: 128 :: r => skip_ws r
  | 226 :: 128 :: c :: r =>
      if ((128 <=? c) && (c <=? 138)) || (c =? 168) || (c =? 169) || (c =? 175)
      then skip_ws r else l
  | 226 :: 129 :: 159 :: r => skip_ws r
  | 227 :: 128 :: 128 :: r => skip_ws r
  | 239 :: 187 :: 191 :: r => skip_ws r
  | _ => l
  end.

Definition all_ws (l : list N) : bool :=
  match skip_ws l with [] => true | _ => false end.

(** The value of a digit in radix up to 16, if it is one. *)
Definition digit_val (c : N) : option Z :=
  if (48 <=? c) && (c <=? 57) then Some (Z.of_N (c - 48))
  else if (97 <=? c) && (c <=? 102) then Some (Z.of_N (c - 87))
  else if (65 <=? c) && (c <=? 70) then Some (Z.of_N (c - 55))
  else None.

Definition is_digit (radix : Z) (c : N) : bool :=
  match digit_val c with Some d => (d <? radix)%Z | None => false end.

(** The longest run of digits at the head of [l], and what follows. *)
Fixpoint span_digits (radix : Z) (l : list N) : list N * list N :=
  match l with
  | c :: r =>
      if is_digit radix c
      then let '(ds, rest) := span_digits radix r in (c :: ds, rest)
      else ([], l)
  | [] => ([], [])
  end.

Definition digits_value (radix : Z) (ds : list N) : Z :=
  fold_left
    (fun acc c => (acc * radix + match digit_val c with Some d => d | None => 0 end)%Z)
    ds 0%Z.

Inductive literal :=
| LitInfinity
| LitDecimal (m e10 : Z).

(** An optional ExponentPart; an [e] that no digit follows is not one. *)
Definition scan_exponent (l : list N) : Z * list N :=
  match l with
  | (101 | 69) :: r =>
      let '(neg, r1) :=
        match r with
        | 43 :: r' => (false, r')
        | 45 :: r' => (true, r')
        | _ => (false, r)
        end in
      match span_digits 10 r1 with
      | ([], _) => (0%Z, l)
      | (ds, rest) =>
          ((if neg then - digits_value 10 ds else digits_value 10 ds)%Z, rest)
      end
  | _ => (0%Z, l)
  end.

(** The longest StrUnsignedDecimalLiteral at the head of [l]. *)
Definition scan_unsigned (l : list N) : option (literal * list N) :=
  match l with
  | 73 :: 110 :: 102 :: 105 :: 110 :: 105 :: 116 :: 121 :: rest =>
      Some (LitInfinity, rest)
  | _ =>
      let '(ip, r1) := span_digits 10 l in
      match r1 with
      | 46 :: r2 =>
          let '(fp, r3) := span_digits 10 r2 in
          match ip, fp with
          | [], [] => None
          | _, _ =>
              let '(ex, r4) := scan_exponent r3 in
              Some (LitDecimal (digits_value 10 (ip ++ fp))
                               (ex - Z.of_nat (List.length fp)), r4)
          end
      | _ =>
          match ip with
          | [] => None
          | _ => let '(ex, r4) := scan_exponent r1 in
                 Some (LitDecimal (digits_value 10 ip) ex, r4)
          end
      end
  end.

(** The longest StrDecimalLiteral at the head of [l], with its sign. *)
Definition scan_signed (l : list N) : option (bool * literal * list N) :=
  let '(neg, r) :=
    match l with
    | 43 :: r => (false, r)
    | 45 :: r => (true, r)
    | _ => (false, l)
    end in
  match scan_unsigned r with
  | Some (lit, rest) => Some (neg, lit, rest)
  | None => None
  end.

Definition literal_value (neg : bool) (lit : literal) : number :=
  match lit with
  | LitInfinity => if neg then neg_infinity else infinity
  | LitDecimal m e10 => of_decimal neg m e10
  end.

(** A NonDecimalIntegerLiteral: [0x], [0o] or [0b] and at least one digit. *)
Definition scan_nondecimal (l : list N) : option (Z * list N) :=
  let go radix r :=
    match span_digits radix r with
    | ([], _) => None
    | (ds, rest) => Some (digits_value radix ds, rest)
    end in
  match l with
  | 48 :: (120 | 88) :: r => go 16%Z r
  | 48 :: (111 | 79) :: r => go 8%Z r
  | 48 :: (98 | 66) :: r => go 2%Z r
  | _ => None
  end.

(** StringToNumber: the empty or blank string is [+0], text that is not a
    StringNumericLiteral is [NaN]. *)
Definition StringToNumber (s : string) : number :=
  match skip_ws (bytes s) with
  | [] => zero
  | l =>
      match scan_nondecimal l with
      | Some (v, rest) => if all_ws rest then of_ratio false v 1 else nan
      | None =>
          match scan_signed l with
          | Some (neg, lit, rest) =>
              if all_ws rest then literal_value neg lit else nan
          | None => nan
          end
      end
  end.

(** [parseFloat] applied to a string. *)
Definition parseFloat (s : string) : number :=
  match scan_signed (skip_ws (bytes s)) with
  | Some (neg, lit, _) => literal_value neg lit
  | None => nan
  end.

End JsString.

Local Open Scope string_scope.

(** ** JavaScript values and conversions *)
Module Js.
Import JsNumber.

(** Plain data: what [JSON.parse] yields, and what [res.json] is given. *)
#[warnings="-register-all"]
Inductive json :=
| JNull
| JBool (b : bool)
| JNumber (x : number)
| JString (s : string)
| JArray (items : list json)
| JObject (props : list (string * json)).

(** What an expression of the handlers can evaluate to: [undefined], plain
    data, or a member that a property lookup found on [Object.prototype]
    ([Native "toString"] is [Object.prototype.toString], [Native
    "constructor"] is [Object], [Native "__proto__"] is [Object.prototype]
    itself). *)
Inductive value :=
| Undefined
| Json (j : json)
| Native (name : string).

(** An abrupt completion carries the message of the thrown [TypeError]. *)
Inductive completion (A : Type) :=
| Normal (a : A)
| Throw (message : string).
Arguments Normal {A} a.
Arguments Throw {A} message.

Definition bind {A B} (c : completion A) (k : A -> completion B) : completion B :=
  match c with
  | Normal a => k a
  | Throw m => Throw m
  end.

Notation "x <- c ;; k" := (bind c (fun x => k))
  (at level 61, c at next level, right associativity).

(** *** Objects and the prototype chain *)

(** The own property names of [Object.prototype]; none is enumerable. *)
Definition object_prototype : list string :=
  [ "constructor"; "__defineGetter__"; "__defineSetter__"; "hasOwnProperty";
    "__lookupGetter__"; "__lookupSetter__"; "isPrototypeOf";
    "propertyIsEnumerable"; "toString"; "valueOf"; "__proto__";
    "toLocaleString" ].

Definition in_prototype (key : string) : bool :=
  existsb (String.eqb key) object_prototype.

(** The own properties of an ordinary object, held in the order in which
    [for ... in] visits them (integer-like names first, ascending, then the
    other names in the order of their creation).  An object has no name
    twice; [own] reads the first entry of a name. *)
Definition object (A : Type) := list (string * A).

Fixpoint own {A} (o : object A) (key : string) : option A :=
  match o with
  | [] => None
  | (k, v) :: rest => if String.eqb k key then Some v else own rest key
  end.

(** The result of [o[key]] on an ordinary object whose prototype is
    [Object.prototype]. *)
Inductive lookup (A : Type) :=
| Own (a : A)
| Inherited (name : string)
| Absent.
Arguments Own {A} a.
Arguments Inherited {A} name.
Arguments Absent {A}.

Definition get {A} (o : object A) (key : string) : lookup A :=
  match own o key with
  | Some a => Own a
  | None => if in_prototype key then Inherited key else Absent
  end.

(** [for (const k in o)]: the own enumerable names, nothing inherited. *)
Definition keys {A} (o : object A) : list string := map fst o.

Definition get_value (o : object json) (key : string) : value :=
  match get o key with
  | Own j => Json j
  | Inherited name => Native name
  | Absent => Undefined
  end.

(** *** Conversions *)

Definition ToBoolean (v : value) : bool :=
  match v with
  | Undefined => false
  | Json JNull => false
  | Json (JBool b) => b
  | Json (JNumber x) => negb (falsy x)
  | Json (JString s) => negb (String.eqb s "")
  | Json (JArray _) | Json (JObject _) => true
  | Native _ => true
  end.

(** [a || b] *)
Definition or_else (a b : value) : value := if ToBoolean a then a else b.

(** ToString on plain data.  An array is joined with commas, [null]
    elements giving the empty string.  An object converts through
    [Object.prototype.toString] unless it has an own property [toString]:
    in plain data that property is not callable, [valueOf] returns the
    object itself, and the conversion throws. *)
Fixpoint json_to_string (j : json) : completion string :=
  match j with
  | JNull => Normal "null"
  | JBool true => Normal "true"
  | JBool false => Normal "false"
  | JNumber x => Normal (toString x)
  | JString s => Normal s
  | JArray items =>
      (fix join (l : list json) : completion string :=
         match l with
         | [] => Normal ""
         | x :: r =>
             let elem :=
               match x with
               | JNull => Normal ""
               | _ => json_to_string x
               end in
             match r with
             | [] => elem
             | _ => a <- elem ;; b <- join r ;; Normal (a ++ "," ++ b)
             end
         end) items
  | JObject props =>
      match own props "toString" with
      | Some _ => Throw "Cannot convert object to primitive value"
      | None => Normal "[object Object]"
      end
  end.

Definition ToString (v : value) : completion string :=
  match v with
  | Undefined => Normal "undefined"
  | Json j => json_to_string j
  | Native "__proto__" => Normal "[object Object]"
  | Native "constructor" => Normal "function Object() { [native code] }"
  | Native name => Normal ("function " ++ name ++ "() { [native code] }")
  end.

(** A property key that is not a string is converted to one. *)
Definition ToPropertyKey (v : value) : completion string := ToString v.

Definition ToNumber (v : value) : completion number :=
  match v with
  | Undefined => Normal nan
  | Json JNull => Normal zero
  | Json (JBool true) => Normal one
  | Json (JBool false) => Normal zero
  | Json (JNumber x) => Normal x
  | Json (JString s) => Normal (JsString.StringToNumber s)
  | _ => s <- ToString v ;; Normal (JsString.StringToNumber s)
  end.

(** The global [isNaN] and [parseFloat]. *)
Definition isNaN (v : value) : completion bool :=
  x <- ToNumber v ;; Normal (JsNumber.isNaN x).

Definition parseFloat (v : value) : completion number :=
  s <- ToString v ;; Normal (JsString.parseFloat s).

(** [a === b].  Objects and arrays are equal only to themselves; the
    handlers compare a value of the catalog with one of the request, which
    are never the same object. *)
Definition strict_equal (a b : value) : bool :=
  match a, b with
  | Undefined, Undefined => true
  | Json JNull, Json JNull => true
  | Json (JBool x), Json (JBool y) => Bool.eqb x y
  | Json (JNumber x), Json (JNumber y) => PrimFloat.eqb x y
  | Json (JString x), Json (JString y) => String.eqb x y
  | Native x, Native y => String.eqb x y
  | _, _ => false
  end.

(** [v.key] for a [key] that no built-in prototype defines and that is
    neither an index nor [length]: only an object can have it, and reading
    it from [null] throws. *)
Definition get_field (v : json) (key : string) : completion value :=
  match v with
  | JNull =>
      Throw ("Cannot read properties of null (reading '" ++ key ++ "')")
  | JObject props => Normal (get_value props key)
  | _ => Normal Undefined
  end.

(** What [JSON.stringify] keeps of an object literal: a property whose
    value is [undefined] or a function is left out. *)
Fixpoint serialise (props : list (string * value)) : list (string * json) :=
  match props with
  | [] => []
  | (k, Json j) :: rest => (k, j) :: serialise rest
  | (k, Native "__proto__") :: rest => (k, JObject []) :: serialise rest
  | (_, _) :: rest => serialise rest
  end.

(** Induction on plain data that reaches the elements of arrays. *)
Section JsonInduction.
Variable P : json -> Prop.
Hypothesis Hnull : P JNull.
Hypothesis Hbool : forall b, P (JBool b).
Hypothesis Hnumber : forall x, P (JNumber x).
Hypothesis Hstring : forall s, P (JString s).
Hypothesis Harray : forall items, Forall P items -> P (JArray items).
Hypothesis Hobject : forall props, P (JObject props).

Fixpoint json_elements_ind (j : json) : P j :=
  match j with
  | JNull => Hnull
  | JBool b => Hbool b
  | JNumber x => Hnumber x
  | JString s => Hstring s
  | JArray items =>
      Harray items
        ((fix all (l : list json) : Forall P l :=
            match l with
            | [] => Forall_nil P
            | x :: rest => Forall_cons x (json_elements_ind x) (all rest)
            end) items)
  | JObject props => Hobject props
  end.
End JsonInduction.

(** [for] loops whose body can throw. *)
Fixpoint for_each {A S} (l : list A) (body : S -> A -> completion S) (s : S)
  : completion S :=
  match l with
  | [] => Normal s
  | a :: rest => s' <- body s a ;; for_each rest body s'
  end.

End Js.

(** ** The gateway *)
Module Server.
Import JsNumber Js.

(** An exercise record and the catalog exported by [./workouts]: category,
    then subcategory, then the exercises, each object with
    [Object.prototype] as its prototype. *)
Definition record := object json.
Definition catalog := object (object (list record)).

Record response := { status : Z; body : json }.

(** [res.json(data)], the status left at its default. *)
Definition json_response (data : json) : response :=
  {| status := 200; body := data |}.

Definition errorResponse (status : Z) (message : string) : response :=
  {| status := status;
     body := JObject [("success", JBool false); ("error", JString message)] |}.

Definition difficultyMap : object json :=
  [ ("beginner", JString "Easy");
    ("intermediate", JString "Medium");
    ("advanced", JString "Hard") ].

Definition mapDifficultyLevel (difficultyLevel : value) : completion value :=
  key <- ToPropertyKey difficultyLevel ;;
  Normal (or_else (get_value difficultyMap key) difficultyLevel).

(** *** POST /api/recommend *)

(** [...x] inside an array literal. *)
Definition spread (x : lookup (list record)) : completion (list record) :=
  match x with
  | Own items => Normal items
  | Inherited _ | Absent =>
      Throw "Spread syntax requires ...iterable[Symbol.iterator] to be a function"
  end.

(** [for (const sub in group) acc = [...acc, ...group[sub]]], for [group]
    the result of a lookup in the catalog; a built-in found on the
    prototype chain has nothing to enumerate. *)
Definition collect (group : lookup (object (list record))) (acc : list record)
  : completion (list record) :=
  match group with
  | Own subs =>
      for_each (keys subs)
        (fun acc sub => items <- spread (get subs sub) ;; Normal (acc ++ items)%list)
        acc
  | Inherited _ | Absent => Normal acc
  end.

(** [difficultyLevel && difficultyLevel !== 'all'] *)
Definition difficulty_given (difficultyLevel : value) : bool :=
  ToBoolean difficultyLevel
  && negb (strict_equal difficultyLevel (Json (JString "all"))).

Definition filter_difficulty (difficultyLevel : value) (items : list record)
  : completion (list record) :=
  if difficulty_given difficultyLevel then
    mappedDifficulty <- mapDifficultyLevel difficultyLevel ;;
    Normal (filter
              (fun w => strict_equal (get_value w "kesulitan") mappedDifficulty)
              items)
  else Normal items.

Definition recommendations_body (items : list record) : json :=
  JObject [("success", JBool true); ("recommendations", JArray (map JObject items))].

Section Catalog.
Variable workouts : catalog.

(** The body of the [try] block. *)
Definition recommend_try (body : object json) : completion response :=
  let workoutType := get_value body "workoutType" in
  let difficultyLevel := get_value body "difficultyLevel" in
  if negb (ToBoolean workoutType) then
    Normal (errorResponse 400 "Workout type is required")
  else if strict_equal workoutType (Json (JString "semua")) then
    allWorkouts <-
      for_each (keys workouts)
        (fun acc type => collect (get workouts type) acc) [] ;;
    allWorkouts <- filter_difficulty difficultyLevel allWorkouts ;;
    Normal (json_response (recommendations_body allWorkouts))
  else
    key <- ToPropertyKey workoutType ;;
    match get workouts key with
    | Absent => Normal (errorResponse 400 "Invalid workout type")
    | selected =>
        typeWorkouts <- collect selected [] ;;
        typeWorkouts <- filter_difficulty difficultyLevel typeWorkouts ;;
        Normal (json_response (recommendations_body typeWorkouts))
    end.

Definition recommend (body : object json) : response :=
  match recommend_try body with
  | Normal r => r
  | Throw _ => errorResponse 500 "Server error while processing recommendation"
  end.

End Catalog.

(** *** The remote service *)

Definition PYTHON_API_URL : string :=
  "https://backendpy-production.up.railway.app/".

(** A call made through axios. *)
Record outbound := {
  out_method : string;
  out_url : string;
  out_data : option json;
  out_timeout : option Z
}.

Record upstream := { up_status : Z; up_data : json }.

(** The value bound by [catch (error)]: [code] and [response] are
    [undefined] unless axios set them. *)
Record error := {
  code : value;
  message : string;
  response_of : option upstream
}.

Inductive settled :=
| Resolved (r : upstream)
| Rejected (e : error).

(** How the network answers each call. *)
Definition network := outbound -> settled.

Definition type_error (m : string) : error :=
  {| code := Undefined; message := m; response_of := None |}.

(** What the client of the gateway observes: a JSON response, a file, the
    framework's 404 for a request that no route takes, or no response at all
    because the promise of an [async] handler was rejected. *)
Inductive outcome :=
| Responded (r : response)
| SentFile (path : string)
| NotFound
| Unhandled (message : string).

Definition settle (c : completion response) : outcome :=
  match c with
  | Normal r => Responded r
  | Throw m => Unhandled m
  end.

(** *** POST /api/recommendations *)

(** [!age || !height || !weight || isNaN(age) || isNaN(height) || isNaN(weight)] *)
Definition invalid_profile (age height weight : value) : completion bool :=
  if negb (ToBoolean age) || negb (ToBoolean height) || negb (ToBoolean weight)
  then Normal true
  else
    a <- isNaN age ;;
    if a then Normal true
    else h <- isNaN height ;;
         if h then Normal true else isNaN weight.

Definition profile (age height weight : value) : completion json :=
  a <- parseFloat age ;;
  h <- parseFloat height ;;
  w <- parseFloat weight ;;
  Normal (JObject [("age", JNumber a); ("height", JNumber h); ("weight", JNumber w)]).

Definition recommend_call (data : json) : outbound :=
  {| out_method := "POST";
     out_url := PYTHON_API_URL ++ "/api/recommend";
     out_data := Some data;
     out_timeout := None |}.

(** The [catch] block. *)
Definition classify (e : error) : completion response :=
  if strict_equal (code e) (Json (JString "ECONNREFUSED"))
     || strict_equal (code e) (Json (JString "ENOTFOUND"))
  then Normal (errorResponse 503
                 "Python server is not available. Please try again later.")
  else
    match response_of e with
    | Some r =>
        detail <- get_field (up_data r) "error" ;;
        text <- ToString (or_else detail (Json (JString "Unknown error"))) ;;
        Normal (errorResponse (up_status r) ("Python server error: " ++ text))
    | None =>
        Normal (errorResponse 500 "Failed to process request with Python server")
    end.

Definition recommendations (net : network) (body : object json)
  : list outbound * outcome :=
  let age := get_value body "age" in
  let height := get_value body "height" in
  let weight := get_value body "weight" in
  match invalid_profile age height weight with
  | Throw m => ([], Unhandled m)
  | Normal true =>
      ([], Responded (errorResponse 400
                        "Missing required fields or invalid data types"))
  | Normal false =>
      match profile age height weight with
      | Throw m => ([], settle (classify (type_error m)))
      | Normal data =>
          let call := recommend_call data in
          match net call with
          | Resolved pythonResponse =>
              ([call], Responded (json_response (up_data pythonResponse)))
          | Rejected e => ([call], settle (classify e))
          end
      end
  end.

(** *** GET /api/health *)

Definition health_call : outbound :=
  {| out_method := "GET";
     out_url := PYTHON_API_URL ++ "/api/health";
     out_data := None;
     out_timeout := Some 5000 |}.

Definition offline (reason : string) : json :=
  JObject (serialise [("expressServer", Json (JString "ok"));
                      ("pythonServer", Json (JString "offline"));
                      ("error", Json (JString reason))]).

Definition health_body (answer : settled) : json :=
  match answer with
  | Resolved pythonHealth =>
      match get_field (up_data pythonHealth) "status" with
      | Normal st =>
          JObject (serialise [("expressServer", Json (JString "ok"));
                              ("pythonServer", or_else st (Json (JString "ok")))])
      | Throw m => offline m
      end
  | Rejected e => offline (message e)
  end.

Definition health (net : network) : list outbound * outcome :=
  ([health_call], Responded (json_response (health_body (net health_call)))).

(** *** Routing *)

(** The request methods; OPTIONS, which the router answers by itself, is
    left out. *)
Inductive verb := GET | HEAD | POST | PUT | PATCH | DELETE.

Record request := { method : verb; url : string; req_body : object json }.

Definition with_url (req : request) (u : string) : request :=
  {| method := method req; url := u; req_body := req_body req |}.

Fixpoint pathname (u : string) : string :=
  match u with
  | EmptyString => EmptyString
  | String c rest => if Ascii.eqb c "?" then EmptyString else String c (pathname rest)
  end.

Definition lower (c : ascii) : ascii :=
  let n := N_of_ascii c in
  if ((65 <=? n) && (n <=? 90))%N then ascii_of_N (n + 32) else c.

Fixpoint lowercase (s : string) : string :=
  match s with
  | EmptyString => EmptyString
  | String c rest => String (lower c) (lowercase rest)
  end.

(** A route path matches without regard to case and with an optional
    trailing slash; the query string takes no part. *)
Definition matches (path u : string) : bool :=
  let p := lowercase (pathname u) in
  String.eqb p path || String.eqb p (path ++ "/").

Definition is_post (v : verb) : bool :=
  match v with POST => true | _ => false end.

(** [app.get] routes answer HEAD requests too. *)
Definition is_get (v : verb) : bool :=
  match v with GET | HEAD => true | _ => false end.

Section App.
Variable workouts : catalog.
(** The file of [dist] that [express.static] serves for a URL, if any. *)
Variable dist : string -> option string.
Variable net : network.

(** One pass of a request over the middleware and routes, in the order
    of registration; [again] is [app._router.handle]. *)
Definition dispatch (again : request -> option (list outbound * outcome))
           (req : request) : option (list outbound * outcome) :=
  match (if is_get (method req) then dist (pathname (url req)) else None) with
  | Some file => Some ([], SentFile file)
  | None =>
      if is_post (method req) && matches "/api/recommend" (url req) then
        Some ([], Responded (recommend workouts (req_body req)))
      else if is_post (method req) && matches "/recommend" (url req) then
        again (with_url req "/api/recommend")
      else if is_post (method req) && matches "/api/recommendations" (url req) then
        Some (recommendations net (req_body req))
      else if is_get (method req) && matches "/api/health" (url req) then
        Some (health net)
      else if is_get (method req) then
        Some ([], SentFile "dist/index.html")
      else Some ([], NotFound)
  end.

(** The application; the fuel bounds how often a handler may hand the
    request back to the router. *)
Fixpoint handle (fuel : nat) (req : request) : option (list outbound * outcome) :=
  match fuel with
  | O => None
  | S f => dispatch (handle f) req
  end.

End App.

End Server.


(** ** Catalogs as objects, and the selections the routes are compared with *)
Module Selection.
Import Js Server.

(** No name occurs twice: the property names of one object. *)
Fixpoint distinct (l : list string) : bool :=
  match l with
  | [] => true
  | k :: rest => negb (existsb (String.eqb k) rest) && distinct rest
  end.

(** The catalog and each of its categories is an object. *)
Definition well_formed (w : catalog) : bool :=
  distinct (keys w) && forallb (fun c => distinct (keys (snd c))) w.

(** Every subcategory list of a category, in order. *)
Definition flatten_category (subs : object (list record)) : list record :=
  List.concat (map snd subs).

(** Every subcategory list of every category, in order. *)
Definition flatten (w : catalog) : list record :=
  List.concat (map (fun c => flatten_category (snd c)) w).

(** The sum of the lengths of all subcategory lists. *)
Definition total (w : catalog) : nat :=
  list_sum (map (fun c => list_sum (map (fun s => List.length (snd s)) (snd c))) w).

(** The records whose [kesulitan] is strictly equal to [label]. *)
Definition with_difficulty (label : value) (items : list record) : list record :=
  filter (fun w => strict_equal (get_value w "kesulitan") label) items.

(** Data whose conversion to a string cannot throw: no object with an own
    [toString], at the top or among the elements of an array. *)
Fixpoint convertible (j : json) : bool :=
  match j with
  | JArray items => forallb convertible items
  | JObject props =>
      match own props "toString" with Some _ => false | None => true end
  | _ => true
  end.

(** [base] is what the category [t] selects before any filter: the whole
    catalog for ['semua'], else the lists of the category named [t]. *)
Definition selects (w : catalog) (t : string) (base : list record) : Prop :=
  (t = "semua" /\ base = flatten w)
  \/ (t <> "semua" /\ exists subs, In (t, subs) w /\ base = flatten_category subs).

End Selection.

(** ** Sample data *)
Module Sample.
Import Js Server.
Local Open Scope float_scope.

Definition exercise (nama kesulitan : string) : record :=
  [("nama", JString nama); ("kesulitan", JString kesulitan)].

Definition workouts : catalog :=
  [ ("strength",
      [ ("upper", [exercise "Push Up" "Easy"; exercise "Pull Up" "Hard"]);
        ("lower", [exercise "Squat" "Medium"]) ]);
    ("endurance",
      [ ("cardio", [exercise "Jogging" "Easy"; exercise "Sprint" "Hard"]) ]) ].

Definition no_files : string -> option string := fun _ => None.

(** A remote service that accepts every call. *)
Definition online : network :=
  fun _ => Resolved {| up_status := 200;
                       up_data := JObject [("status", JString "ok")] |}.

(** A remote service whose host refuses the connection. *)
Definition refused : network :=
  fun _ => Rejected {| code := Json (JString "ECONNREFUSED");
                       message := "connect ECONNREFUSED";
                       response_of := None |}.

(** A remote service that answers 500 with the JSON text [null]. *)
Definition null_payload : network :=
  fun _ => Rejected {| code := Json (JString "ERR_BAD_RESPONSE");
                       message := "Request failed with status code 500";
                       response_of := Some {| up_status := 500; up_data := JNull |} |}.

Definition profile_body (age height weight : json) : object json :=
  [("age", age); ("height", height); ("weight", weight)].

End Sample.

(** * Properties *)

(** ** The runtime on sample values *)
Module RuntimeFacts.
Import JsNumber Js.
Local Open Scope float_scope.

Example toString_numbers :
  map JsNumber.toString
      [0.5; 25; -60.5; 1e21; 9007199254740992; -0; 0x1.999999999999ap-4;
       0x1.0c6f7a0b5ed8dp-20; 0x1.ad7f29abcaf48p-24; 0x0.0000000000001p-1022;
       0x1.fffffffffffffp+1023; infinity; nan]
  = ["0.5"; "25"; "-60.5"; "1e+21"; "9007199254740992"; "0"; "0.1";
     "0.000001"; "1e-7"; "5e-324"; "1.7976931348623157e+308"; "Infinity"; "NaN"].
Proof. vm_compute; reflexivity. Qed.

Example StringToNumber_strings :
  map JsString.StringToNumber
      [" 25 "; ""; "0x10"; "1e3"; "12px"; "5."; ".5"; "-Infinity"; "0.1"; "1e400"]
  = [25; 0; 16; 1000; nan; 5; 0.5; neg_infinity; 0x1.999999999999ap-4; infinity].
Proof. vm_compute; reflexivity. Qed.

Example parseFloat_strings :
  map JsString.parseFloat
      ["12px"; " 3.5e2kg"; "true"; ""; "0x10"; "-Infinityx"; "1e"; "-.5"]
  = [12; 350; nan; nan; 0; neg_infinity; 1; -0.5].
Proof. vm_compute; reflexivity. Qed.

Example conversions_of_data :
  ToNumber (Json (JArray [JNumber 25])) = Normal 25
  /\ ToNumber (Json (JArray [])) = Normal 0
  /\ ToNumber (Json (JObject [])) = Normal nan
  /\ ToNumber (Json (JObject [("toString", JNull)]))
     = Throw "Cannot convert object to primitive value"
  /\ ToString (Json (JArray [JNull; JNumber 1; JArray [JString "a"; JBool true]]))
     = Normal ",1,a,true"
  /\ ToBoolean (Json (JString "0")) = true
  /\ ToBoolean (Json (JNumber 0)) = false
  /\ ToBoolean (Json (JArray [])) = true.
Proof. vm_compute; repeat split. Qed.

End RuntimeFacts.

(** ** Loops over the own properties of an object *)
Module Loops.
Import Js Server Selection.

Lemma for_each_map {A B S} (f : A -> B) (l : list A)
      (body : S -> B -> completion S) (s : S) :
  for_each (map f l) body s = for_each l (fun s a => body s (f a)) s.
Proof.
  revert s; induction l as [|a l IH]; intros s; simpl; [reflexivity|].
  destruct (body s (f a)); simpl; [apply IH | reflexivity].
Qed.

Lemma for_each_ext_in {A S} (l : list A) (body body' : S -> A -> completion S) :
  (forall a s, In a l -> body s a = body' s a) ->
  forall s, for_each l body s = for_each l body' s.
Proof.
  induction l as [|a l IH]; intros Hext s; simpl; [reflexivity|].
  rewrite (Hext a s) by (left; reflexivity).
  destruct (body' s a); simpl; [|reflexivity].
  apply IH; intros b t Hb; apply Hext; right; exact Hb.
Qed.

Lemma for_each_append {A B} (g : A -> list B) (l : list A) (acc : list B) :
  for_each l (fun acc a => Normal (acc ++ g a)%list) acc
  = Normal (acc ++ List.concat (map g l))%list.
Proof.
  revert acc; induction l as [|a l IH]; intros acc; simpl.
  - rewrite app_nil_r; reflexivity.
  - rewrite IH, app_assoc; reflexivity.
Qed.

Lemma existsb_eqb_false (k : string) (l : list string) :
  existsb (String.eqb k) l = false -> ~ In k l.
Proof.
  intros H Hin.
  assert (existsb (String.eqb k) l = true) as Ht.
  { apply existsb_exists; exists k; split; [exact Hin | apply String.eqb_refl]. }
  congruence.
Qed.

Lemma own_distinct {A} (o : object A) (k : string) (v : A) :
  distinct (keys o) = true -> In (k, v) o -> own o k = Some v.
Proof.
  induction o as [|[k0 v0] o IH]; simpl; intros Hd Hin; [contradiction|].
  apply andb_prop in Hd; destruct Hd as [Hfresh Hd].
  apply negb_true_iff in Hfresh.
  destruct Hin as [Heq | Hin].
  - inversion Heq; subst; rewrite String.eqb_refl; reflexivity.
  - destruct (String.eqb_spec k0 k) as [->|_].
    + exfalso; apply (existsb_eqb_false _ _ Hfresh).
      change k with (fst (k, v)); apply in_map; exact Hin.
    + apply IH; assumption.
Qed.

Lemma get_distinct {A} (o : object A) (k : string) (v : A) :
  distinct (keys o) = true -> In (k, v) o -> get o k = Own v.
Proof.
  intros Hd Hin; unfold get; rewrite (own_distinct o k v Hd Hin); reflexivity.
Qed.

(** The inner loop appends the subcategory lists of a category in order. *)
Lemma collect_own (subs : object (list record)) (acc : list record) :
  distinct (keys subs) = true ->
  collect (Own subs) acc = Normal (acc ++ flatten_category subs)%list.
Proof.
  intros Hd; unfold collect, keys, flatten_category.
  rewrite for_each_map.
  rewrite (for_each_ext_in subs _ (fun acc kv => Normal (acc ++ snd kv)%list)).
  - apply for_each_append.
  - intros [k v] s Hin; simpl.
    rewrite (get_distinct subs k v Hd Hin); reflexivity.
Qed.

(** The outer loop appends the categories in order. *)
Lemma collect_all (w : catalog) (acc : list record) :
  well_formed w = true ->
  for_each (keys w) (fun acc type => collect (get w type) acc) acc
  = Normal (acc ++ flatten w)%list.
Proof.
  intros Hwf; apply andb_prop in Hwf; destruct Hwf as [Hd Hsubs].
  unfold keys, flatten; rewrite for_each_map.
  rewrite (for_each_ext_in w _
             (fun acc c => Normal (acc ++ flatten_category (snd c))%list)).
  - apply for_each_append.
  - intros [k subs] s Hin; simpl.
    rewrite (get_distinct w k subs Hd Hin).
    apply collect_own.
    rewrite forallb_forall in Hsubs; exact (Hsubs (k, subs) Hin).
Qed.

Lemma length_flatten (w : catalog) : List.length (flatten w) = total w.
Proof.
  unfold flatten, total, flatten_category.
  rewrite List.length_concat, map_map; f_equal.
  apply map_ext; intros c.
  rewrite List.length_concat, map_map; reflexivity.
Qed.

End Loops.

(** ** Conversions that cannot throw *)
Module ConversionFacts.
Import Js Server Selection.

Lemma json_to_string_cons (x : json) (rest : list json) :
  json_to_string (JArray (x :: rest))
  = match rest with
    | [] => match x with JNull => Normal "" | _ => json_to_string x end
    | _ => a <- match x with JNull => Normal "" | _ => json_to_string x end ;;
           b <- json_to_string (JArray rest) ;;
           Normal (a ++ "," ++ b)
    end.
Proof. destruct rest; reflexivity. Qed.

Lemma json_to_string_convertible (j : json) :
  convertible j = true -> exists s, json_to_string j = Normal s.
Proof.
  induction j as [| b | x | s | items IH | props] using json_elements_ind;
    intros Hc.
  - eexists; reflexivity.
  - destruct b; eexists; reflexivity.
  - eexists; reflexivity.
  - eexists; reflexivity.
  - induction IH as [| x rest Hx _ IHrest].
    + eexists; reflexivity.
    + simpl in Hc; apply andb_prop in Hc; destruct Hc as [Hcx Hcrest].
      destruct (Hx Hcx) as [sx Hsx].
      destruct (IHrest Hcrest) as [sr Hsr].
      assert (exists a, match x with JNull => Normal "" | _ => json_to_string x end
                        = Normal a) as [a Ha]
        by (destruct x; eexists; first [reflexivity | exact Hsx]).
      rewrite json_to_string_cons, Ha, Hsr.
      destruct rest; eexists; reflexivity.
  - simpl in Hc |- *; destruct (own props "toString"); [discriminate|].
    eexists; reflexivity.
Qed.

Lemma property_key_convertible (j : json) :
  convertible j = true -> exists key, ToPropertyKey (Json j) = Normal key.
Proof. exact (json_to_string_convertible j). Qed.

End ConversionFacts.

(** ** POST /api/recommend *)
Module RecommendFacts.
Import Js Server Selection Loops.

Lemma string_truthy (s : string) : s <> "" -> ToBoolean (Json (JString s)) = true.
Proof.
  intros Hs; simpl; apply negb_true_iff, String.eqb_neq; exact Hs.
Qed.

(** A string is its own property key. *)
Lemma property_key_string (s : string) : ToPropertyKey (Json (JString s)) = Normal s.
Proof. reflexivity. Qed.

Lemma difficulty_given_string (alias : string) :
  alias <> "" -> alias <> "all" ->
  difficulty_given (Json (JString alias)) = true.
Proof.
  intros Hne Hall; unfold difficulty_given.
  rewrite (string_truthy alias Hne); simpl.
  apply negb_true_iff, String.eqb_neq; exact Hall.
Qed.

(** The mapper on a string: the table's entry, else a member inherited from
    [Object.prototype], else the string itself. *)
Lemma mapDifficultyLevel_string (alias : string) :
  mapDifficultyLevel (Json (JString alias))
  = Normal (or_else (get_value difficultyMap alias) (Json (JString alias))).
Proof. reflexivity. Qed.

Lemma no_match_filter {A} (f : A -> bool) (l : list A) :
  Forall (fun a => f a = false) l -> filter f l = [].
Proof.
  induction 1 as [|a l Ha _ IH]; simpl; [reflexivity|].
  rewrite Ha; exact IH.
Qed.

(** The request for every category, before the difficulty filter. *)
Lemma recommend_try_semua (w : catalog) (body : object json) :
  well_formed w = true ->
  get_value body "workoutType" = Json (JString "semua") ->
  recommend_try w body
  = (chosen <- filter_difficulty (get_value body "difficultyLevel") (flatten w) ;;
     Normal (json_response (recommendations_body chosen))).
Proof.
  intros Hwf Hty; unfold recommend_try; rewrite Hty.
  change (ToBoolean (Json (JString "semua"))) with true.
  change (strict_equal (Json (JString "semua")) (Json (JString "semua"))) with true.
  cbv iota beta; change (negb true) with false; cbv iota.
  rewrite (collect_all w [] Hwf); reflexivity.
Qed.

(** The request for one category of the catalog, before the filter. *)
Lemma recommend_try_category (w : catalog) (body : object json)
      (t : string) (subs : object (list record)) :
  well_formed w = true ->
  get_value body "workoutType" = Json (JString t) ->
  t <> "" -> t <> "semua" ->
  In (t, subs) w ->
  recommend_try w body
  = (chosen <- filter_difficulty (get_value body "difficultyLevel")
                 (flatten_category subs) ;;
     Normal (json_response (recommendations_body chosen))).
Proof.
  intros Hwf Hty Hne Hns Hin; unfold recommend_try; rewrite Hty.
  rewrite (string_truthy t Hne); cbv iota beta; change (negb true) with false.
  cbv iota.
  assert (strict_equal (Json (JString t)) (Json (JString "semua")) = false) as ->
    by (apply String.eqb_neq; exact Hns).
  rewrite property_key_string; unfold bind at 1.
  pose proof Hwf as Hwf'; apply andb_prop in Hwf'; destruct Hwf' as [Hd Hsubs].
  rewrite (get_distinct w t subs Hd Hin).
  rewrite forallb_forall in Hsubs.
  rewrite (collect_own subs [] (Hsubs (t, subs) Hin)); reflexivity.
Qed.

(** The request for a name that only [Object.prototype] defines. *)
Lemma recommend_try_inherited (w : catalog) (body : object json) (t : string) :
  get_value body "workoutType" = Json (JString t) ->
  t <> "semua" ->
  own w t = None ->
  in_prototype t = true ->
  recommend_try w body
  = (chosen <- filter_difficulty (get_value body "difficultyLevel") [] ;;
     Normal (json_response (recommendations_body chosen))).
Proof.
  intros Hty Hns Hown Hproto; unfold recommend_try; rewrite Hty.
  assert (t <> "") as Hne by (intros ->; discriminate Hproto).
  rewrite (string_truthy t Hne); cbv iota beta; change (negb true) with false.
  cbv iota.
  assert (strict_equal (Json (JString t)) (Json (JString "semua")) = false) as ->
    by (apply String.eqb_neq; exact Hns).
  rewrite property_key_string; unfold bind at 1.
  unfold get; rewrite Hown, Hproto; reflexivity.
Qed.

(** The request for a name that neither the catalog nor [Object.prototype]
    defines. *)
Lemma recommend_try_unknown (w : catalog) (body : object json) (t : string) :
  get_value body "workoutType" = Json (JString t) ->
  t <> "" -> t <> "semua" ->
  own w t = None ->
  in_prototype t = false ->
  recommend_try w body = Normal (errorResponse 400 "Invalid workout type").
Proof.
  intros Hty Hne Hns Hown Hproto; unfold recommend_try; rewrite Hty.
  rewrite (string_truthy t Hne); cbv iota beta; change (negb true) with false.
  cbv iota.
  assert (strict_equal (Json (JString t)) (Json (JString "semua")) = false) as ->
    by (apply String.eqb_neq; exact Hns).
  rewrite property_key_string; unfold bind at 1.
  unfold get; rewrite Hown, Hproto; reflexivity.
Qed.

(** C1. A request whose [workoutType] is ['semua'] and whose
    [difficultyLevel] is falsy or ['all'] is answered 200 with every
    subcategory list of every category appended in the order of the catalog:
    category, then subcategory, then record.  The sequence therefore has as
    many records as the subcategory lists have together. *)
Theorem recommend_all_is_concatenation (w : catalog) (body : object json) :
  well_formed w = true ->
  get_value body "workoutType" = Json (JString "semua") ->
  difficulty_given (get_value body "difficultyLevel") = false ->
  recommend w body
  = {| status := 200;
       body := JObject [("success", JBool true);
                        ("recommendations", JArray (map JObject (flatten w)))] |}
  /\ List.length (map JObject (flatten w)) = total w.
Proof.
  intros Hwf Hty Hno; split.
  - unfold recommend; rewrite (recommend_try_semua w body Hwf Hty).
    unfold filter_difficulty; rewrite Hno; reflexivity.
  - rewrite length_map; apply length_flatten.
Qed.

Lemma recommend_all_is_concatenation_witness :
  recommend Sample.workouts [("workoutType", JString "semua")]
  = {| status := 200;
       body := JObject [("success", JBool true);
                        ("recommendations",
                         JArray (map JObject (flatten Sample.workouts)))] |}
  /\ List.length (map JObject (flatten Sample.workouts)) = total Sample.workouts.
Proof.
  apply (recommend_all_is_concatenation Sample.workouts
           [("workoutType", JString "semua")]); reflexivity.
Defined.

(** A request for one category of the catalog, with [difficultyLevel] falsy
    or ['all'], is answered 200 with the subcategory lists of that category
    appended in order. *)
Theorem recommend_category_is_concatenation
        (w : catalog) (body : object json) (t : string)
        (subs : object (list record)) :
  well_formed w = true ->
  get_value body "workoutType" = Json (JString t) ->
  t <> "" -> t <> "semua" ->
  In (t, subs) w ->
  difficulty_given (get_value body "difficultyLevel") = false ->
  recommend w body
  = {| status := 200;
       body := JObject [("success", JBool true);
                        ("recommendations",
                         JArray (map JObject (flatten_category subs)))] |}.
Proof.
  intros Hwf Hty Hne Hns Hin Hno; unfold recommend.
  rewrite (recommend_try_category w body t subs Hwf Hty Hne Hns Hin).
  unfold filter_difficulty; rewrite Hno; reflexivity.
Qed.

Lemma recommend_category_is_concatenation_witness :
  recommend Sample.workouts
    [("workoutType", JString "endurance"); ("difficultyLevel", JString "all")]
  = {| status := 200;
       body := JObject [("success", JBool true);
                        ("recommendations",
                         JArray [JObject (Sample.exercise "Jogging" "Easy");
                                 JObject (Sample.exercise "Sprint" "Hard")])] |}.
Proof.
  apply (recommend_category_is_concatenation Sample.workouts
           [("workoutType", JString "endurance"); ("difficultyLevel", JString "all")]
           "endurance"
           [("cardio", [Sample.exercise "Jogging" "Easy";
                        Sample.exercise "Sprint" "Hard"])]);
    try reflexivity; try discriminate.
  right; left; reflexivity.
Defined.

(** C3. When [difficultyLevel] is present and not ['all'], a request for
    every category, or for one category of the catalog, is answered 200 with
    exactly the selected records whose [kesulitan] is strictly equal to the
    mapped difficulty, in their order; when no record matches, the answer is
    still 200, with an empty list.  The difficulty may be any data whose
    conversion to a property key cannot throw: every string, number and
    boolean, and arrays and objects without an own [toString]. *)
Theorem recommend_filters_by_difficulty
        (w : catalog) (body : object json) (t : string) (d : json)
        (base : list record) :
  well_formed w = true ->
  get_value body "workoutType" = Json (JString t) ->
  t <> "" ->
  selects w t base ->
  get_value body "difficultyLevel" = Json d ->
  convertible d = true ->
  difficulty_given (Json d) = true ->
  exists mapped,
    mapDifficultyLevel (Json d) = Normal mapped
    /\ recommend w body
       = {| status := 200;
            body := JObject [("success", JBool true);
                             ("recommendations",
                              JArray (map JObject (with_difficulty mapped base)))] |}
    /\ (Forall (fun r => strict_equal (get_value r "kesulitan") mapped = false) base ->
        recommend w body
        = {| status := 200;
             body := JObject [("success", JBool true);
                              ("recommendations", JArray [])] |}).
Proof.
  intros Hwf Hty Hne Hsel Hlevel Hconv Hgiven.
  destruct (ConversionFacts.property_key_convertible d Hconv) as [key Hkey].
  assert (mapDifficultyLevel (Json d)
          = Normal (or_else (get_value difficultyMap key) (Json d))) as Hmap
    by (unfold mapDifficultyLevel; rewrite Hkey; reflexivity).
  exists (or_else (get_value difficultyMap key) (Json d)).
  split; [exact Hmap|].
  assert (recommend w body
          = json_response
              (recommendations_body
                 (with_difficulty (or_else (get_value difficultyMap key) (Json d))
                                  base))) as Hres.
  { unfold recommend.
    destruct Hsel as [[-> ->] | [Hns [subs [Hin ->]]]].
    - rewrite (recommend_try_semua w body Hwf Hty), Hlevel.
      unfold filter_difficulty; rewrite Hgiven, Hmap; reflexivity.
    - rewrite (recommend_try_category w body t subs Hwf Hty Hne Hns Hin), Hlevel.
      unfold filter_difficulty; rewrite Hgiven, Hmap; reflexivity. }
  split; [exact Hres|].
  intros Hnone; rewrite Hres; unfold with_difficulty.
  replace (filter _ base) with (@nil record); [reflexivity|].
  symmetry; apply (no_match_filter _ base Hnone).
Qed.

Lemma recommend_filters_by_difficulty_witness :
  exists mapped,
    mapDifficultyLevel (Json (JString "beginner")) = Normal mapped
    /\ recommend Sample.workouts
         [("workoutType", JString "semua"); ("difficultyLevel", JString "beginner")]
       = {| status := 200;
            body := JObject [("success", JBool true);
                             ("recommendations",
                              JArray (map JObject
                                        (with_difficulty mapped
                                           (flatten Sample.workouts))))] |}.
Proof.
  destruct (recommend_filters_by_difficulty Sample.workouts
              [("workoutType", JString "semua"); ("difficultyLevel", JString "beginner")]
              "semua" (JString "beginner") (flatten Sample.workouts))
    as [mapped [Hmap [Hres _]]].
  - reflexivity.
  - reflexivity.
  - discriminate.
  - left; split; reflexivity.
  - reflexivity.
  - reflexivity.
  - reflexivity.
  - exists mapped; split; [exact Hmap | exact Hres].
Defined.

(** C6, at the failing input.  A [workoutType] that names a member of
    [Object.prototype] and no category is not rejected: the lookup
    [workouts[workoutType]] finds the inherited member, which is truthy and
    has nothing to enumerate, and the answer is 200 with an empty list. *)
Theorem recommend_accepts_inherited_name (w : catalog) :
  own w "constructor" = None ->
  recommend w [("workoutType", JString "constructor")]
  = {| status := 200;
       body := JObject [("success", JBool true); ("recommendations", JArray [])] |}.
Proof.
  intros Hown; unfold recommend.
  rewrite (recommend_try_inherited w _ "constructor");
    [reflexivity | reflexivity | discriminate | exact Hown | reflexivity].
Qed.

Lemma recommend_accepts_inherited_name_witness :
  recommend Sample.workouts [("workoutType", JString "constructor")]
  = {| status := 200;
       body := JObject [("success", JBool true); ("recommendations", JArray [])] |}.
Proof.
  apply (recommend_accepts_inherited_name Sample.workouts); reflexivity.
Defined.

(** A [workoutType] that is a non-empty string, not ['semua'], and names
    neither a category nor a member of [Object.prototype] is rejected with
    400 and [success: false]. *)
Theorem recommend_rejects_unknown_name
        (w : catalog) (body : object json) (t : string) :
  get_value body "workoutType" = Json (JString t) ->
  t <> "" -> t <> "semua" ->
  own w t = None ->
  in_prototype t = false ->
  recommend w body
  = {| status := 400;
       body := JObject [("success", JBool false);
                        ("error", JString "Invalid workout type")] |}.
Proof.
  intros Hty Hne Hns Hown Hproto; unfold recommend.
  rewrite (recommend_try_unknown w body t Hty Hne Hns Hown Hproto); reflexivity.
Qed.

Lemma recommend_rejects_unknown_name_witness :
  recommend Sample.workouts [("workoutType", JString "yoga")]
  = {| status := 400;
       body := JObject [("success", JBool false);
                        ("error", JString "Invalid workout type")] |}.
Proof.
  apply (recommend_rejects_unknown_name Sample.workouts _ "yoga");
    try reflexivity; discriminate.
Defined.

(** C7. A request whose body has no [workoutType], or has the empty string
    there, is answered 400 with [success: false] and the message that the
    workout type is required, whatever the catalog holds. *)
Theorem recommend_requires_workout_type (w : catalog) (body : object json) :
  own body "workoutType" = None \/ own body "workoutType" = Some (JString "") ->
  recommend w body
  = {| status := 400;
       body := JObject [("success", JBool false);
                        ("error", JString "Workout type is required")] |}
  /\ forall w', recommend w' body = recommend w body.
Proof.
  assert (forall c, own body "workoutType" = None
                    \/ own body "workoutType" = Some (JString "") ->
                    recommend c body = errorResponse 400 "Workout type is required")
    as Hany.
  { intros c Habsent; unfold recommend, recommend_try, get_value at 1, get.
    destruct Habsent as [-> | ->]; reflexivity. }
  intros Habsent; split.
  - apply Hany; exact Habsent.
  - intros w'; rewrite (Hany w Habsent); apply Hany; exact Habsent.
Qed.

Lemma recommend_requires_workout_type_witness :
  recommend Sample.workouts [("difficultyLevel", JString "beginner")]
  = {| status := 400;
       body := JObject [("success", JBool false);
                        ("error", JString "Workout type is required")] |}
  /\ forall w', recommend w' [("difficultyLevel", JString "beginner")]
                = recommend Sample.workouts [("difficultyLevel", JString "beginner")].
Proof.
  apply (recommend_requires_workout_type Sample.workouts
           [("difficultyLevel", JString "beginner")]).
  left; reflexivity.
Defined.

End RecommendFacts.

(** ** The difficulty mapper *)
Module MapperFacts.
Import Js Server.

(** The three aliases of the table map to the catalog's labels. *)
Theorem mapDifficultyLevel_aliases :
  mapDifficultyLevel (Json (JString "beginner")) = Normal (Json (JString "Easy"))
  /\ mapDifficultyLevel (Json (JString "intermediate")) = Normal (Json (JString "Medium"))
  /\ mapDifficultyLevel (Json (JString "advanced")) = Normal (Json (JString "Hard")).
Proof. repeat split. Qed.

(** A string that names neither an alias nor a member of [Object.prototype]
    is returned as it is. *)
Theorem mapDifficultyLevel_passes_other_strings (s : string) :
  own difficultyMap s = None ->
  in_prototype s = false ->
  mapDifficultyLevel (Json (JString s)) = Normal (Json (JString s)).
Proof.
  intros Hown Hproto.
  unfold mapDifficultyLevel, ToPropertyKey, ToString, json_to_string, bind.
  unfold get_value, get; rewrite Hown, Hproto; reflexivity.
Qed.

Lemma mapDifficultyLevel_passes_other_strings_witness :
  mapDifficultyLevel (Json (JString "Medium")) = Normal (Json (JString "Medium")).
Proof.
  apply (mapDifficultyLevel_passes_other_strings "Medium"); reflexivity.
Defined.

(** C2, at the failing inputs.  For the name of a member of
    [Object.prototype] the lookup [difficultyMap[difficultyLevel]] finds that
    member, which is truthy, and the mapper returns it in place of the input;
    for an object with an own [toString] the key conversion throws and the
    mapper returns nothing. *)
Theorem mapDifficultyLevel_inherited_member :
  mapDifficultyLevel (Json (JString "toString")) = Normal (Native "toString")
  /\ Native "toString" <> Json (JString "toString")
  /\ mapDifficultyLevel (Json (JObject [("toString", JNull)]))
     = Throw "Cannot convert object to primitive value".
Proof.
  split; [reflexivity|]; split; [discriminate | reflexivity].
Qed.

End MapperFacts.

(** ** POST /api/recommendations *)
Module ProxyFacts.
Import JsNumber Js Server.
Local Open Scope float_scope.

Lemma invalid_profile_falsy (age height weight : value) :
  ToBoolean age && ToBoolean height && ToBoolean weight = false ->
  invalid_profile age height weight = Normal true.
Proof.
  intros H; unfold invalid_profile.
  destruct (ToBoolean age), (ToBoolean height), (ToBoolean weight);
    try discriminate H; reflexivity.
Qed.

Lemma invalid_profile_truthy (age height weight : value) (a h w : number) :
  ToBoolean age && ToBoolean height && ToBoolean weight = true ->
  ToNumber age = Normal a -> ToNumber height = Normal h -> ToNumber weight = Normal w ->
  invalid_profile age height weight
  = Normal (JsNumber.isNaN a || JsNumber.isNaN h || JsNumber.isNaN w).
Proof.
  intros H Ha Hh Hw; unfold invalid_profile, isNaN.
  destruct (ToBoolean age), (ToBoolean height), (ToBoolean weight);
    try discriminate H.
  rewrite Ha, Hh, Hw; simpl.
  destruct (JsNumber.isNaN a), (JsNumber.isNaN h); reflexivity.
Qed.

(** A value that converts to a number converts to a string. *)
Lemma ToNumber_ToString (v : value) (x : number) :
  ToNumber v = Normal x -> exists s, ToString v = Normal s.
Proof.
  intros H.
  destruct (ToString v) as [s|m] eqn:Hs; [exists s; reflexivity|].
  exfalso; destruct v as [|j|name].
  - discriminate Hs.
  - destruct j as [|b|y|s|items|props]; try discriminate Hs.
    + destruct b; discriminate Hs.
    + unfold ToNumber in H; rewrite Hs in H; discriminate H.
    + unfold ToNumber in H; rewrite Hs in H; discriminate H.
  - unfold ToNumber in H; rewrite Hs in H; discriminate H.
Qed.

Lemma parseFloat_defined (v : value) (x : number) :
  ToNumber v = Normal x -> exists p, parseFloat v = Normal p.
Proof.
  intros H; destruct (ToNumber_ToString v x H) as [s Hs].
  exists (JsString.parseFloat s); unfold parseFloat; rewrite Hs; reflexivity.
Qed.

(** C4, as the code has it.  A request with a falsy [age], [height] or
    [weight] (missing, [null], [false], [0], [NaN] or the empty string) is
    answered 400 and no call leaves the gateway.  When the three are truthy
    and convert to numbers, the request is answered 400 without a call if one
    of them converts to [NaN], and otherwise exactly one call is made, whose
    payload holds [parseFloat] of each value. *)
Theorem recommendations_validation (net : network) (body : object json) :
  (ToBoolean (get_value body "age") && ToBoolean (get_value body "height")
   && ToBoolean (get_value body "weight") = false ->
   recommendations net body
   = ([], Responded (errorResponse 400
                       "Missing required fields or invalid data types")))
  /\ (ToBoolean (get_value body "age") && ToBoolean (get_value body "height")
      && ToBoolean (get_value body "weight") = true ->
      forall a h w,
        ToNumber (get_value body "age") = Normal a ->
        ToNumber (get_value body "height") = Normal h ->
        ToNumber (get_value body "weight") = Normal w ->
        (JsNumber.isNaN a || JsNumber.isNaN h || JsNumber.isNaN w = true ->
         recommendations net body
         = ([], Responded (errorResponse 400
                             "Missing required fields or invalid data types")))
        /\ (JsNumber.isNaN a || JsNumber.isNaN h || JsNumber.isNaN w = false ->
            exists pa ph pw,
              parseFloat (get_value body "age") = Normal pa
              /\ parseFloat (get_value body "height") = Normal ph
              /\ parseFloat (get_value body "weight") = Normal pw
              /\ fst (recommendations net body)
                 = [recommend_call
                      (JObject [("age", JNumber pa); ("height", JNumber ph);
                                ("weight", JNumber pw)])])).
Proof.
  split.
  - intros Hfalsy; unfold recommendations.
    rewrite (invalid_profile_falsy _ _ _ Hfalsy); reflexivity.
  - intros Htruthy a h w Ha Hh Hw; unfold recommendations.
    rewrite (invalid_profile_truthy _ _ _ a h w Htruthy Ha Hh Hw).
    split; intros Hnan; rewrite Hnan; [reflexivity|].
    destruct (parseFloat_defined _ _ Ha) as [pa Hpa].
    destruct (parseFloat_defined _ _ Hh) as [ph Hph].
    destruct (parseFloat_defined _ _ Hw) as [pw Hpw].
    exists pa, ph, pw; repeat (split; [assumption|]).
    unfold profile; rewrite Hpa, Hph, Hpw; simpl.
    destruct (net _); reflexivity.
Qed.

Lemma recommendations_validation_witness :
  fst (recommendations Sample.refused
         (Sample.profile_body (JNumber 25) (JString "170") (JNumber 60.5)))
  = [recommend_call
       (JObject [("age", JNumber 25); ("height", JNumber 170);
                 ("weight", JNumber 60.5)])].
Proof.
  destruct (recommendations_validation Sample.refused
              (Sample.profile_body (JNumber 25) (JString "170") (JNumber 60.5)))
    as [_ Hvalid].
  destruct (Hvalid eq_refl 25 170 60.5 eq_refl eq_refl eq_refl) as [_ Hcall].
  destruct (Hcall eq_refl) as [pa [ph [pw [Ha [Hh [Hw Hfst]]]]]].
  vm_compute in Ha, Hh, Hw.
  injection Ha as <-; injection Hh as <-; injection Hw as <-.
  exact Hfst.
Defined.

(** C4 as stated fails: [age = 0] is present and converts to a number that
    is not [NaN], as do the other two fields, and yet the request is
    answered 400 and no call is made. *)
Lemma recommendations_zero_age_counterexample :
  ToNumber (Json (JNumber 0)) = Normal 0 /\ JsNumber.isNaN 0 = false
  /\ ToNumber (Json (JNumber 170)) = Normal 170 /\ JsNumber.isNaN 170 = false
  /\ ToNumber (Json (JNumber 60)) = Normal 60 /\ JsNumber.isNaN 60 = false
  /\ recommendations Sample.online
       (Sample.profile_body (JNumber 0) (JNumber 170) (JNumber 60))
     = ([], Responded (errorResponse 400
                         "Missing required fields or invalid data types")).
Proof. repeat split. Qed.

(** C10. A request in which [age], [height] or [weight] is the number [0]
    is answered 400 and no call leaves the gateway. *)
Theorem recommendations_rejects_zero (net : network) (body : object json) :
  get_value body "age" = Json (JNumber 0)
  \/ get_value body "height" = Json (JNumber 0)
  \/ get_value body "weight" = Json (JNumber 0) ->
  recommendations net body
  = ([], Responded {| status := 400;
                      body := JObject
                                [("success", JBool false);
                                 ("error",
                                  JString "Missing required fields or invalid data types")] |}).
Proof.
  intros Hzero; unfold recommendations.
  rewrite invalid_profile_falsy; [reflexivity|].
  destruct Hzero as [-> | [-> | ->]].
  - reflexivity.
  - change (ToBoolean (Json (JNumber 0))) with false.
    rewrite andb_false_r; reflexivity.
  - change (ToBoolean (Json (JNumber 0))) with false.
    apply andb_false_r.
Qed.

Lemma recommendations_rejects_zero_witness :
  recommendations Sample.online
    (Sample.profile_body (JNumber 30) (JNumber 0) (JNumber 70))
  = ([], Responded {| status := 400;
                      body := JObject
                                [("success", JBool false);
                                 ("error",
                                  JString "Missing required fields or invalid data types")] |}).
Proof.
  apply (recommendations_rejects_zero Sample.online
           (Sample.profile_body (JNumber 30) (JNumber 0) (JNumber 70))).
  right; left; reflexivity.
Defined.

(** A request that passes the validation and whose call the remote service
    answers with success is answered 200 with the body of that answer, as it
    came. *)
Theorem recommendations_relays_success
        (net : network) (body : object json) (data : json) (r : upstream) :
  invalid_profile (get_value body "age") (get_value body "height")
                  (get_value body "weight") = Normal false ->
  profile (get_value body "age") (get_value body "height")
          (get_value body "weight") = Normal data ->
  net (recommend_call data) = Resolved r ->
  recommendations net body
  = ([recommend_call data], Responded {| status := 200; body := up_data r |}).
Proof.
  intros Hvalid Hdata Hnet; unfold recommendations.
  rewrite Hvalid, Hdata; cbv zeta; rewrite Hnet; reflexivity.
Qed.

Lemma recommendations_relays_success_witness :
  recommendations Sample.online
    (Sample.profile_body (JNumber 25) (JNumber 170) (JNumber 60))
  = ([recommend_call (JObject [("age", JNumber 25); ("height", JNumber 170);
                               ("weight", JNumber 60)])],
     Responded {| status := 200; body := JObject [("status", JString "ok")] |}).
Proof.
  apply (recommendations_relays_success Sample.online
           (Sample.profile_body (JNumber 25) (JNumber 170) (JNumber 60))
           (JObject [("age", JNumber 25); ("height", JNumber 170);
                     ("weight", JNumber 60)])
           {| up_status := 200; up_data := JObject [("status", JString "ok")] |});
    reflexivity.
Defined.

(** A rejected call is answered by the [catch] block. *)
Lemma recommendations_rejected
      (net : network) (body : object json) (data : json) (e : error) :
  invalid_profile (get_value body "age") (get_value body "height")
                  (get_value body "weight") = Normal false ->
  profile (get_value body "age") (get_value body "height")
          (get_value body "weight") = Normal data ->
  net (recommend_call data) = Rejected e ->
  recommendations net body = ([recommend_call data], settle (classify e)).
Proof.
  intros Hvalid Hdata Hnet; unfold recommendations.
  rewrite Hvalid, Hdata; cbv zeta; rewrite Hnet; reflexivity.
Qed.

(** The [catch] block answers 503 when the error code is [ECONNREFUSED] or
    [ENOTFOUND]; else, when the error carries a response whose payload is an
    object with a string (or no) [error] field, the status of that response
    and the prefixed message; else, with no response, 500 and the generic
    message. *)
Theorem classify_cases (e : error) :
  (code e = Json (JString "ECONNREFUSED") \/ code e = Json (JString "ENOTFOUND") ->
   classify e
   = Normal (errorResponse 503
               "Python server is not available. Please try again later."))
  /\ (strict_equal (code e) (Json (JString "ECONNREFUSED")) = false ->
      strict_equal (code e) (Json (JString "ENOTFOUND")) = false ->
      (forall r props,
          response_of e = Some r -> up_data r = JObject props ->
          (forall detail, own props "error" = Some (JString detail) -> detail <> "" ->
                          classify e
                          = Normal (errorResponse (up_status r)
                                      ("Python server error: " ++ detail)))
          /\ (own props "error" = None ->
              classify e
              = Normal (errorResponse (up_status r)
                          "Python server error: Unknown error")))
      /\ (response_of e = None ->
          classify e
          = Normal (errorResponse 500
                      "Failed to process request with Python server"))).
Proof.
  split.
  - intros [Hc | Hc]; unfold classify; rewrite Hc; reflexivity.
  - intros H1 H2; unfold classify; rewrite H1, H2; simpl orb; cbv iota.
    split.
    + intros r props -> Hdata; rewrite Hdata; split.
      * intros detail Hown Hne; unfold get_field, get_value, get.
        rewrite Hown; unfold bind at 1, or_else.
        rewrite (RecommendFacts.string_truthy detail Hne); reflexivity.
      * intros Hown; unfold get_field, get_value, get.
        rewrite Hown; reflexivity.
    + intros ->; reflexivity.
Qed.

(** C5, at the failing input.  The remote service answers 500 with the JSON
    text [null]; the [catch] block reads [error.response.data.error] from
    [null], which throws inside the [async] handler, and the request is left
    without any response. *)
Theorem recommendations_null_payload_unanswered :
  recommendations Sample.null_payload
    (Sample.profile_body (JNumber 25) (JNumber 170) (JNumber 60))
  = ([recommend_call (JObject [("age", JNumber 25); ("height", JNumber 170);
                               ("weight", JNumber 60)])],
     Unhandled "Cannot read properties of null (reading 'error')").
Proof. reflexivity. Qed.

End ProxyFacts.

(** ** GET /api/health *)
Module HealthFacts.
Import Js Server.

(** C8. Whatever the outcome of the health call, which is given five
    seconds, the route answers 200 with [expressServer: 'ok']; when the call
    is rejected the body is [expressServer: 'ok'], [pythonServer: 'offline']
    and the message of the error. *)
Theorem health_always_answers (net : network) :
  exists props,
    health net
    = ([health_call], Responded {| status := 200; body := JObject props |})
    /\ out_timeout health_call = Some 5000%Z
    /\ own props "expressServer" = Some (JString "ok")
    /\ (forall e, net health_call = Rejected e ->
                  props = [("expressServer", JString "ok");
                           ("pythonServer", JString "offline");
                           ("error", JString (message e))]).
Proof.
  unfold health, health_body.
  destruct (net health_call) as [r | e].
  - destruct (get_field (up_data r) "status") as [st | m].
    + eexists; split; [reflexivity|]; split; [reflexivity|]; split.
      * reflexivity.
      * intros e He; discriminate He.
    + eexists; split; [reflexivity|]; split; [reflexivity|]; split.
      * reflexivity.
      * intros e He; discriminate He.
  - eexists; split; [reflexivity|]; split; [reflexivity|]; split.
    + reflexivity.
    + intros e' He; injection He as <-; reflexivity.
Qed.

(** When the health call succeeds with an object whose [status] is a
    non-empty string, the route reports that status for the remote
    service. *)
Theorem health_reports_status
        (net : network) (r : upstream) (props : object json) (st : string) :
  net health_call = Resolved r ->
  up_data r = JObject props ->
  own props "status" = Some (JString st) ->
  st <> "" ->
  health net
  = ([health_call],
     Responded {| status := 200;
                  body := JObject [("expressServer", JString "ok");
                                   ("pythonServer", JString st)] |}).
Proof.
  intros Hnet Hdata Hown Hne; unfold health, health_body.
  rewrite Hnet, Hdata; unfold get_field, get_value, get; rewrite Hown.
  unfold or_else; rewrite (RecommendFacts.string_truthy st Hne); reflexivity.
Qed.

Lemma health_reports_status_witness :
  health Sample.online
  = ([health_call],
     Responded {| status := 200;
                  body := JObject [("expressServer", JString "ok");
                                   ("pythonServer", JString "ok")] |}).
Proof.
  apply (health_reports_status Sample.online
           {| up_status := 200; up_data := JObject [("status", JString "ok")] |}
           [("status", JString "ok")] "ok");
    try reflexivity; discriminate.
Defined.

End HealthFacts.

(** ** The legacy route *)
Module RoutingFacts.
Import Js Server.

Lemma legacy_is_not_standard (u : string) :
  matches "/recommend" u = true -> matches "/api/recommend" u = false.
Proof.
  unfold matches; intros H.
  apply orb_true_iff in H; destruct H as [H | H];
    apply String.eqb_eq in H; rewrite H; reflexivity.
Qed.

(** C9. With fuel for one hand-back to the router, a POST that the legacy
    route [/recommend] matches and a POST that [/api/recommend] matches get,
    for the same body, the same answer: the one of the [/api/recommend]
    handler, with no call to the remote service. *)
Theorem legacy_route_same_response
        (w : catalog) (dist : string -> option string) (net : network)
        (fuel : nat) (body : object json) (legacy standard : string) :
  matches "/recommend" legacy = true ->
  matches "/api/recommend" standard = true ->
  handle w dist net (S (S fuel))
         {| method := POST; url := legacy; req_body := body |}
  = handle w dist net (S (S fuel))
           {| method := POST; url := standard; req_body := body |}
  /\ handle w dist net (S (S fuel))
            {| method := POST; url := legacy; req_body := body |}
     = Some ([], Responded (recommend w body)).
Proof.
  intros Hlegacy Hstandard.
  assert (handle w dist net (S (S fuel))
                 {| method := POST; url := standard; req_body := body |}
          = Some ([], Responded (recommend w body))) as Hdirect.
  { cbn [handle]; unfold dispatch; cbn [method url req_body is_get is_post andb].
    rewrite Hstandard; reflexivity. }
  assert (handle w dist net (S (S fuel))
                 {| method := POST; url := legacy; req_body := body |}
          = Some ([], Responded (recommend w body))) as Hlegacy'.
  { cbn [handle]; unfold dispatch at 1; cbn [method url req_body is_get is_post andb].
    rewrite (legacy_is_not_standard legacy Hlegacy), Hlegacy.
    reflexivity. }
  split; [rewrite Hdirect; exact Hlegacy' | exact Hlegacy'].
Qed.

Lemma legacy_route_same_response_witness :
  handle Sample.workouts Sample.no_files Sample.refused 2
         {| method := POST; url := "/Recommend/?from=legacy";
            req_body := [("workoutType", JString "endurance")] |}
  = handle Sample.workouts Sample.no_files Sample.refused 2
           {| method := POST; url := "/api/recommend";
              req_body := [("workoutType", JString "endurance")] |}
  /\ handle Sample.workouts Sample.no_files Sample.refused 2
            {| method := POST; url := "/Recommend/?from=legacy";
               req_body := [("workoutType", JString "endurance")] |}
     = Some ([], Responded (recommend Sample.workouts
                              [("workoutType", JString "endurance")])).
Proof.
  apply (legacy_route_same_response Sample.workouts Sample.no_files Sample.refused 0
           [("workoutType", JString "endurance")]
           "/Recommend/?from=legacy" "/api/recommend");
    reflexivity.
Defined.

(** Without fuel for the hand-back the legacy route has no answer, so the
    bound of two above is needed. *)
Lemma legacy_route_needs_fuel
      (w : catalog) (dist : string -> option string) (net : network)
      (body : object json) :
  handle w dist net 1 {| method := POST; url := "/recommend"; req_body := body |}
  = None.
Proof. reflexivity. Qed.

End RoutingFacts.

(** ** POST /api/recommend: the shape of its answers and its [catch] block *)
Module RecommendShape.
Import Js Server Selection Loops.

Lemma own_keys {A} (o : object A) (k : string) :
  In k (keys o) -> exists v, own o k = Some v.
Proof.
  induction o as [|[k0 v0] o IH]; simpl; [contradiction|].
  intros [<- | Hin].
  - rewrite String.eqb_refl; eexists; reflexivity.
  - destruct (String.eqb k0 k); [eexists; reflexivity | exact (IH Hin)].
Qed.

Lemma for_each_normal {A S} (l : list A) (body : S -> A -> completion S) :
  (forall a s, In a l -> exists s', body s a = Normal s') ->
  forall s, exists s', for_each l body s = Normal s'.
Proof.
  induction l as [|a l IH]; intros Hbody s; simpl.
  - exists s; reflexivity.
  - destruct (Hbody a s (or_introl eq_refl)) as [s1 ->]; simpl.
    apply IH; intros b t Hb; apply Hbody; right; exact Hb.
Qed.

(** Reading back a name that [for ... in] gave never throws. *)
Lemma collect_normal (group : lookup (object (list record))) (acc : list record) :
  exists l, collect group acc = Normal l.
Proof.
  destruct group as [subs | name |]; simpl; try (eexists; reflexivity).
  apply for_each_normal; intros sub s Hin.
  destruct (own_keys subs sub Hin) as [items Hitems].
  unfold get; rewrite Hitems; simpl; eexists; reflexivity.
Qed.

Lemma collect_catalog_normal (w : catalog) (acc : list record) :
  exists l,
    for_each (keys w) (fun acc type => collect (get w type) acc) acc = Normal l.
Proof.
  apply for_each_normal; intros type s _; apply collect_normal.
Qed.

(** A field of the request body is [undefined] or plain data. *)
Lemma body_field (body : object json) (k : string) :
  in_prototype k = false ->
  get_value body k = match own body k with Some j => Json j | None => Undefined end.
Proof.
  intros Hk; unfold get_value, get; destruct (own body k); [reflexivity|].
  rewrite Hk; reflexivity.
Qed.

Lemma filter_difficulty_not_given (d : value) (items : list record) :
  difficulty_given d = false -> filter_difficulty d items = Normal items.
Proof. intros H; unfold filter_difficulty; rewrite H; reflexivity. Qed.

Lemma filter_difficulty_normal (d : value) (items : list record) :
  (forall j, d = Json j -> convertible j = true) ->
  (forall name, d <> Native name) ->
  exists chosen, filter_difficulty d items = Normal chosen.
Proof.
  intros Hconv Hnative; unfold filter_difficulty.
  destruct (difficulty_given d); [|eexists; reflexivity].
  destruct d as [| j | name].
  - eexists; reflexivity.
  - destruct (ConversionFacts.property_key_convertible j (Hconv j eq_refl))
      as [key Hkey].
    unfold mapDifficultyLevel; rewrite Hkey; simpl; eexists; reflexivity.
  - exfalso; exact (Hnative name eq_refl).
Qed.

(** What the [try] block returns when nothing throws. *)
Lemma recommend_try_shape (w : catalog) (body : object json) (r : response) :
  recommend_try w body = Normal r ->
  (exists items,
      r = {| status := 200;
             body := JObject [("success", JBool true);
                              ("recommendations", JArray (map JObject items))] |})
  \/ r = errorResponse 400 "Workout type is required"
  \/ r = errorResponse 400 "Invalid workout type".
Proof.
  unfold recommend_try.
  destruct (negb (ToBoolean (get_value body "workoutType")));
    [intros [= <-]; right; left; reflexivity|].
  destruct (strict_equal (get_value body "workoutType") (Json (JString "semua"))).
  - destruct (for_each (keys w) _ []) as [all | m]; cbn [bind]; [|discriminate].
    destruct (filter_difficulty _ all) as [chosen | m]; cbn [bind]; [|discriminate].
    intros [= <-]; left; exists chosen; reflexivity.
  - destruct (ToPropertyKey (get_value body "workoutType")) as [key | m];
      cbn [bind]; [|discriminate].
    destruct (get w key) as [subs | name |];
      [| | intros [= <-]; right; right; reflexivity].
    + destruct (collect (Own subs) []) as [base | m]; cbn [bind]; [|discriminate].
      destruct (filter_difficulty _ base) as [chosen | m]; cbn [bind];
        [|discriminate].
      intros [= <-]; left; exists chosen; reflexivity.
    + destruct (collect (Inherited name) []) as [base | m]; cbn [bind];
        [|discriminate].
      destruct (filter_difficulty _ base) as [chosen | m]; cbn [bind];
        [|discriminate].
      intros [= <-]; left; exists chosen; reflexivity.
Qed.

(** The [try] block throws nothing when the two fields convert. *)
Lemma recommend_try_normal (w : catalog) (body : object json) :
  (forall j, own body "workoutType" = Some j -> convertible j = true) ->
  (forall j, own body "difficultyLevel" = Some j -> convertible j = true) ->
  exists r, recommend_try w body = Normal r.
Proof.
  intros Htype Hlevel; unfold recommend_try.
  rewrite (body_field body "workoutType" eq_refl).
  rewrite (body_field body "difficultyLevel" eq_refl).
  assert (forall items,
             exists chosen,
               filter_difficulty
                 match own body "difficultyLevel" with
                 | Some j => Json j
                 | None => Undefined
                 end items = Normal chosen) as Hfilter.
  { intros items; apply filter_difficulty_normal.
    - intros j Hj; destruct (own body "difficultyLevel") as [j'|];
        [|discriminate Hj].
      injection Hj as <-; apply Hlevel; reflexivity.
    - intros name Hn; destruct (own body "difficultyLevel"); discriminate Hn. }
  destruct (own body "workoutType") as [t|]; [|eexists; reflexivity].
  destruct (negb (ToBoolean (Json t))); [eexists; reflexivity|].
  destruct (strict_equal (Json t) (Json (JString "semua"))).
  - destruct (collect_catalog_normal w []) as [all ->]; cbn [bind].
    destruct (Hfilter all) as [chosen ->]; cbn [bind].
    eexists; reflexivity.
  - destruct (ConversionFacts.property_key_convertible t (Htype t eq_refl))
      as [key ->]; cbn [bind].
    destruct (get w key) as [subs | name |]; [| | eexists; reflexivity].
    + destruct (collect_normal (Own subs) []) as [base ->]; cbn [bind].
      destruct (Hfilter base) as [chosen ->]; cbn [bind].
      eexists; reflexivity.
    + destruct (collect_normal (Inherited name) []) as [base ->]; cbn [bind].
      destruct (Hfilter base) as [chosen ->]; cbn [bind].
      eexists; reflexivity.
Qed.

(** Every answer of the route is one of four: 200 with [success: true] and
    a list of records, 400 for a missing workout type, 400 for an unknown
    one, or 500 with the message of the [catch] block.  The flag [success]
    is [true] exactly when the status is 200. *)
Theorem recommend_answers (w : catalog) (body : object json) :
  (exists items,
      recommend w body
      = {| status := 200;
           body := JObject [("success", JBool true);
                            ("recommendations", JArray (map JObject items))] |})
  \/ recommend w body = errorResponse 400 "Workout type is required"
  \/ recommend w body = errorResponse 400 "Invalid workout type"
  \/ recommend w body
     = errorResponse 500 "Server error while processing recommendation".
Proof.
  unfold recommend.
  destruct (recommend_try w body) as [r | m] eqn:Htry.
  - destruct (recommend_try_shape w body r Htry) as [Hok | [Hreq | Hinv]];
      [left; exact Hok | right; left; exact Hreq | right; right; left; exact Hinv].
  - right; right; right; reflexivity.
Qed.

(** The [catch] block is not reached when the conversions cannot throw:
    if [workoutType] and [difficultyLevel], where present, hold data without
    an object that has an own [toString], the answer is 200 with a list of
    records or one of the two 400 answers, for every catalog. *)
Theorem recommend_no_server_error (w : catalog) (body : object json) :
  (forall j, own body "workoutType" = Some j -> convertible j = true) ->
  (forall j, own body "difficultyLevel" = Some j -> convertible j = true) ->
  (exists items,
      recommend w body
      = {| status := 200;
           body := JObject [("success", JBool true);
                            ("recommendations", JArray (map JObject items))] |})
  \/ recommend w body = errorResponse 400 "Workout type is required"
  \/ recommend w body = errorResponse 400 "Invalid workout type".
Proof.
  intros Htype Hlevel.
  destruct (recommend_try_normal w body Htype Hlevel) as [r Hr].
  unfold recommend; rewrite Hr.
  exact (recommend_try_shape w body r Hr).
Qed.

Lemma recommend_no_server_error_witness :
  (exists items,
      recommend Sample.workouts
        [("workoutType", JArray [JString "strength"]);
         ("difficultyLevel", JNumber 3%float)]
      = {| status := 200;
           body := JObject [("success", JBool true);
                            ("recommendations", JArray (map JObject items))] |})
  \/ recommend Sample.workouts
       [("workoutType", JArray [JString "strength"]);
        ("difficultyLevel", JNumber 3%float)]
     = errorResponse 400 "Workout type is required"
  \/ recommend Sample.workouts
       [("workoutType", JArray [JString "strength"]);
        ("difficultyLevel", JNumber 3%float)]
     = errorResponse 400 "Invalid workout type".
Proof.
  apply (recommend_no_server_error Sample.workouts
           [("workoutType", JArray [JString "strength"]);
            ("difficultyLevel", JNumber 3%float)]);
    intros j Hj; injection Hj as <-; reflexivity.
Defined.

(** The [catch] block is reached when [workoutType] is an object with an
    own [toString]: such an object is truthy and is not ['semua'], the
    lookup [workouts[workoutType]] throws while converting it to a property
    name, and the answer is 500, for every catalog. *)
Theorem recommend_server_error
        (w : catalog) (body : object json) (props : object json) :
  own body "workoutType" = Some (JObject props) ->
  own props "toString" <> None ->
  recommend w body
  = {| status := 500;
       body := JObject [("success", JBool false);
                        ("error",
                         JString "Server error while processing recommendation")] |}.
Proof.
  intros Hbody Hown; unfold recommend, recommend_try.
  rewrite (body_field body "workoutType" eq_refl), Hbody; simpl.
  destruct (own props "toString"); [reflexivity | contradiction].
Qed.

Lemma recommend_server_error_witness :
  recommend Sample.workouts
    [("workoutType", JObject [("toString", JString "strength")])]
  = {| status := 500;
       body := JObject [("success", JBool false);
                        ("error",
                         JString "Server error while processing recommendation")] |}.
Proof.
  apply (recommend_server_error Sample.workouts
           [("workoutType", JObject [("toString", JString "strength")])]
           [("toString", JString "strength")]);
    [reflexivity | discriminate].
Defined.

End RecommendShape.

(** ** POST /api/recommend: requests with the same answer, and where the
    records of an answer come from *)
Module RecommendRelations.
Import Js Server Selection Loops.

(** The answer depends on the body through [workoutType] and through what
    the difficulty filter does. *)
Lemma recommend_congruence (w : catalog) (b1 b2 : object json) :
  get_value b1 "workoutType" = get_value b2 "workoutType" ->
  (forall items,
      filter_difficulty (get_value b1 "difficultyLevel") items
      = filter_difficulty (get_value b2 "difficultyLevel") items) ->
  recommend w b1 = recommend w b2.
Proof.
  intros Htype Hfilter; unfold recommend, recommend_try; rewrite Htype.
  destruct (negb (ToBoolean (get_value b2 "workoutType"))); [reflexivity|].
  destruct (strict_equal (get_value b2 "workoutType") (Json (JString "semua"))).
  - destruct (for_each (keys w) _ []) as [all | m]; cbn [bind]; [|reflexivity].
    rewrite Hfilter; reflexivity.
  - destruct (ToPropertyKey (get_value b2 "workoutType")) as [key | m];
      cbn [bind]; [|reflexivity].
    destruct (get w key) as [subs | name |]; [| | reflexivity].
    + destruct (collect (Own subs) []) as [base | m]; cbn [bind]; [|reflexivity].
      rewrite Hfilter; reflexivity.
    + destruct (collect (Inherited name) []) as [base | m]; cbn [bind];
        [|reflexivity].
      rewrite Hfilter; reflexivity.
Qed.

(** Two requests for the same workout type get the same answer when neither
    gives a difficulty: a [difficultyLevel] that is missing, falsy ([null],
    [false], [0], the empty string) or ['all'] makes no difference. *)
Theorem recommend_without_difficulty (w : catalog) (b1 b2 : object json) :
  get_value b1 "workoutType" = get_value b2 "workoutType" ->
  difficulty_given (get_value b1 "difficultyLevel") = false ->
  difficulty_given (get_value b2 "difficultyLevel") = false ->
  recommend w b1 = recommend w b2.
Proof.
  intros Htype H1 H2; apply recommend_congruence; [exact Htype|].
  intros items; unfold filter_difficulty; rewrite H1, H2; reflexivity.
Qed.

Lemma recommend_without_difficulty_witness :
  recommend Sample.workouts
    [("workoutType", JString "strength"); ("difficultyLevel", JString "all")]
  = recommend Sample.workouts
      [("difficultyLevel", JNull); ("workoutType", JString "strength")].
Proof.
  apply (recommend_without_difficulty Sample.workouts
           [("workoutType", JString "strength"); ("difficultyLevel", JString "all")]
           [("difficultyLevel", JNull); ("workoutType", JString "strength")]);
    reflexivity.
Defined.

(** A request that names a difficulty by its alias and one that names it by
    the catalog's label ('beginner' and 'Easy', 'intermediate' and 'Medium',
    'advanced' and 'Hard') get the same answer. *)
Theorem recommend_alias_or_label
        (w : catalog) (b1 b2 : object json) (alias : string) (label : json) :
  In (alias, label) difficultyMap ->
  get_value b1 "workoutType" = get_value b2 "workoutType" ->
  get_value b1 "difficultyLevel" = Json (JString alias) ->
  get_value b2 "difficultyLevel" = Json label ->
  recommend w b1 = recommend w b2.
Proof.
  intros Hin Htype H1 H2; apply recommend_congruence; [exact Htype|].
  intros items; rewrite H1, H2.
  destruct Hin as [[= <- <-] | [[= <- <-] | [[= <- <-] | []]]]; reflexivity.
Qed.

Lemma recommend_alias_or_label_witness :
  recommend Sample.workouts
    [("workoutType", JString "semua"); ("difficultyLevel", JString "advanced")]
  = recommend Sample.workouts
      [("workoutType", JString "semua"); ("difficultyLevel", JString "Hard")].
Proof.
  apply (recommend_alias_or_label Sample.workouts
           [("workoutType", JString "semua"); ("difficultyLevel", JString "advanced")]
           [("workoutType", JString "semua"); ("difficultyLevel", JString "Hard")]
           "advanced" (JString "Hard"));
    try reflexivity.
  right; right; left; reflexivity.
Defined.

Lemma own_in {A} (o : object A) (k : string) (v : A) :
  own o k = Some v -> In (k, v) o.
Proof.
  induction o as [|[k0 v0] o IH]; simpl; [discriminate|].
  destruct (String.eqb_spec k0 k) as [-> | _].
  - intros [= ->]; left; reflexivity.
  - intros H; right; exact (IH H).
Qed.

Lemma get_own_in {A} (o : object A) (k : string) (v : A) :
  get o k = Own v -> In (k, v) o.
Proof.
  unfold get; destruct (own o k) as [a|] eqn:Ho.
  - intros [= ->]; exact (own_in o k v Ho).
  - destruct (in_prototype k); discriminate.
Qed.

Lemma for_each_invariant {A S} (P : S -> Prop) (l : list A)
      (body : S -> A -> completion S) :
  (forall a s s', In a l -> P s -> body s a = Normal s' -> P s') ->
  forall s s', P s -> for_each l body s = Normal s' -> P s'.
Proof.
  induction l as [|a l IH]; simpl; intros Hstep s s' Hs Hrun.
  - injection Hrun as <-; exact Hs.
  - destruct (body s a) as [s1 | m] eqn:Hbody; simpl in Hrun; [|discriminate].
    apply (IH (fun b t t' Hb => Hstep b t t' (or_intror Hb)) s1 s');
      [exact (Hstep a s s1 (or_introl eq_refl) Hs Hbody) | exact Hrun].
Qed.

(** [r] is a record of some subcategory list of the catalog. *)
Lemma collect_from_catalog (w : catalog) (type : string)
      (acc out : list record) (P : record -> Prop) :
  (forall subs sub items r,
      In (type, subs) w -> In (sub, items) subs -> In r items -> P r) ->
  Forall P acc ->
  collect (get w type) acc = Normal out ->
  Forall P out.
Proof.
  intros HP Hacc; destruct (get w type) as [subs | name |] eqn:Hget; simpl;
    try (intros [= <-]; exact Hacc).
  apply (for_each_invariant (Forall P)); [|exact Hacc].
  intros sub s s' _ Hs.
  destruct (get subs sub) as [items | name |] eqn:Hsub; simpl; try discriminate.
  intros [= <-]; apply Forall_app; split; [exact Hs|].
  apply Forall_forall; intros r Hr.
  exact (HP subs sub items r (get_own_in w type subs Hget)
            (get_own_in subs sub items Hsub) Hr).
Qed.

Lemma filter_difficulty_keeps (d : value) (items chosen : list record)
      (P : record -> Prop) :
  Forall P items -> filter_difficulty d items = Normal chosen -> Forall P chosen.
Proof.
  intros Hitems; unfold filter_difficulty.
  destruct (difficulty_given d); [|intros [= <-]; exact Hitems].
  destruct (mapDifficultyLevel d) as [mapped | m]; simpl; [|discriminate].
  intros [= <-]; apply Forall_forall; intros r Hr.
  apply filter_In in Hr; destruct Hr as [Hr _].
  rewrite Forall_forall in Hitems; exact (Hitems r Hr).
Qed.

Lemma map_JObject_injective (l l' : list record) :
  map JObject l = map JObject l' -> l = l'.
Proof.
  revert l'; induction l as [|r l IH]; intros [|r' l']; simpl;
    try discriminate; [reflexivity|].
  intros [= -> Hrest]; f_equal; exact (IH l' Hrest).
Qed.

(** The route never makes up a record: whenever its answer carries a list
    of recommendations, every record of the list is a record of some
    subcategory list of the catalog. *)
Theorem recommend_only_catalog_records
        (w : catalog) (body : object json) (items : list record) (r : record) :
  recommend w body
  = {| status := 200;
       body := JObject [("success", JBool true);
                        ("recommendations", JArray (map JObject items))] |} ->
  In r items ->
  exists type subs sub exercises,
    In (type, subs) w /\ In (sub, exercises) subs /\ In r exercises.
Proof.
  intros Hres Hr.
  set (P := fun r : record =>
              exists type subs sub exercises,
                In (type, subs) w /\ In (sub, exercises) subs /\ In r exercises).
  assert (forall type subs sub exercises x,
             In (type, subs) w -> In (sub, exercises) subs -> In x exercises -> P x)
    as HP by (intros type subs sub exercises x H1 H2 H3;
              exists type, subs, sub, exercises; repeat split; assumption).
  assert (Forall P items) as Hall.
  { revert Hres; unfold recommend, recommend_try.
    destruct (negb (ToBoolean (get_value body "workoutType"))); [discriminate|].
    destruct (strict_equal (get_value body "workoutType") (Json (JString "semua"))).
    - destruct (for_each (keys w) _ []) as [all | m] eqn:Hloop; cbn [bind];
        [|discriminate].
      destruct (filter_difficulty _ all) as [chosen | m] eqn:Hfilter; cbn [bind];
        [|discriminate].
      intros [= Heq]; apply map_JObject_injective in Heq; subst chosen.
      eapply (filter_difficulty_keeps _ all items P); [|exact Hfilter].
      refine (for_each_invariant (Forall P) (keys w)
                (fun acc type => collect (get w type) acc) _ [] all
                (Forall_nil P) Hloop).
      intros type s s' _ Hs Hstep.
      exact (collect_from_catalog w type s s' P (HP type) Hs Hstep).
    - destruct (ToPropertyKey (get_value body "workoutType")) as [key | m];
        cbn [bind]; [|discriminate].
      destruct (get w key) as [subs | name |] eqn:Hget; [| | discriminate].
      + destruct (collect (Own subs) []) as [base | m] eqn:Hbase; cbn [bind];
          [|discriminate].
        destruct (filter_difficulty _ base) as [chosen | m] eqn:Hfilter;
          cbn [bind]; [|discriminate].
        intros [= Heq]; apply map_JObject_injective in Heq; subst chosen.
        eapply (filter_difficulty_keeps _ base items P); [|exact Hfilter].
        rewrite <- Hget in Hbase.
        exact (collect_from_catalog w key [] base P (HP key) (Forall_nil P) Hbase).
      + destruct (collect (Inherited name) []) as [base | m] eqn:Hbase;
          cbn [bind]; [|discriminate].
        destruct (filter_difficulty _ base) as [chosen | m] eqn:Hfilter;
          cbn [bind]; [|discriminate].
        intros [= Heq]; apply map_JObject_injective in Heq; subst chosen.
        eapply (filter_difficulty_keeps _ base items P); [|exact Hfilter].
        injection Hbase as <-; constructor. }
  rewrite Forall_forall in Hall; exact (Hall r Hr).
Qed.

Lemma recommend_only_catalog_records_witness :
  exists type subs sub exercises,
    In (type, subs) Sample.workouts /\ In (sub, exercises) subs
    /\ In (Sample.exercise "Squat" "Medium") exercises.
Proof.
  apply (recommend_only_catalog_records Sample.workouts
           [("workoutType", JString "strength");
            ("difficultyLevel", JString "intermediate")]
           [Sample.exercise "Squat" "Medium"]);
    [reflexivity | left; reflexivity].
Defined.

End RecommendRelations.

(** ** POST /api/recommendations: the calls it makes *)
Module ProxyCalls.
Import JsNumber Js Server.
Local Open Scope float_scope.

Lemma profile_shape (age height weight : value) (data : json) :
  profile age height weight = Normal data ->
  exists a h w,
    data = JObject [("age", JNumber a); ("height", JNumber h); ("weight", JNumber w)].
Proof.
  unfold profile.
  destruct (parseFloat age) as [a|]; cbn [bind]; [|discriminate].
  destruct (parseFloat height) as [h|]; cbn [bind]; [|discriminate].
  destruct (parseFloat weight) as [w|]; cbn [bind]; [|discriminate].
  intros [= <-]; exists a, h, w; reflexivity.
Qed.

(** The calls of a request, read off the body alone. *)
Lemma recommendations_calls (net : network) (body : object json) :
  fst (recommendations net body)
  = match invalid_profile (get_value body "age") (get_value body "height")
                          (get_value body "weight"),
          profile (get_value body "age") (get_value body "height")
                  (get_value body "weight") with
    | Normal false, Normal data => [recommend_call data]
    | _, _ => []
    end.
Proof.
  unfold recommendations.
  destruct (invalid_profile _ _ _) as [[|] | m]; try reflexivity.
  destruct (profile _ _ _) as [data | m]; [|reflexivity].
  cbv zeta; destruct (net (recommend_call data)); reflexivity.
Qed.

(** The route makes at most one call for a request, never a second one.
    The call, when there is one, is a POST to the fixed address of the
    remote service, with no timeout, and its payload is an object of exactly
    three numbers: [age], [height] and [weight]. *)
Theorem recommendations_single_call
        (net : network) (body : object json) (call : outbound) :
  In call (fst (recommendations net body)) ->
  fst (recommendations net body) = [call]
  /\ out_method call = "POST"
  /\ out_url call = "https://backendpy-production.up.railway.app//api/recommend"
  /\ out_timeout call = None
  /\ exists a h w,
       out_data call
       = Some (JObject [("age", JNumber a); ("height", JNumber h);
                        ("weight", JNumber w)]).
Proof.
  rewrite recommendations_calls.
  destruct (invalid_profile _ _ _) as [[|] | m]; try contradiction.
  destruct (profile _ _ _) as [data | m] eqn:Hdata; [|contradiction].
  intros [<- | []].
  destruct (profile_shape _ _ _ data Hdata) as [a [h [w ->]]].
  repeat split; exists a, h, w; reflexivity.
Qed.

Lemma recommendations_single_call_witness :
  fst (recommendations Sample.refused
         (Sample.profile_body (JNumber 25) (JNumber 170) (JNumber 60)))
  = [recommend_call (JObject [("age", JNumber 25); ("height", JNumber 170);
                              ("weight", JNumber 60)])]
  /\ out_method (recommend_call (JObject [("age", JNumber 25); ("height", JNumber 170);
                                          ("weight", JNumber 60)])) = "POST"
  /\ out_url (recommend_call (JObject [("age", JNumber 25); ("height", JNumber 170);
                                       ("weight", JNumber 60)]))
     = "https://backendpy-production.up.railway.app//api/recommend"
  /\ out_timeout (recommend_call (JObject [("age", JNumber 25); ("height", JNumber 170);
                                           ("weight", JNumber 60)])) = None
  /\ exists a h w,
       out_data (recommend_call (JObject [("age", JNumber 25); ("height", JNumber 170);
                                          ("weight", JNumber 60)]))
       = Some (JObject [("age", JNumber a); ("height", JNumber h);
                        ("weight", JNumber w)]).
Proof.
  apply (recommendations_single_call Sample.refused
           (Sample.profile_body (JNumber 25) (JNumber 170) (JNumber 60))).
  vm_compute; left; reflexivity.
Defined.

(** Whether a call is made, and with which payload, is settled by the body
    before the network is consulted; and a request that makes no call gets
    the same outcome whatever the remote service would have answered. *)
Theorem recommendations_calls_from_body
        (net1 net2 : network) (body : object json) :
  fst (recommendations net1 body) = fst (recommendations net2 body)
  /\ (fst (recommendations net1 body) = [] ->
      recommendations net1 body = recommendations net2 body).
Proof.
  split; [rewrite !recommendations_calls; reflexivity|].
  unfold recommendations.
  destruct (invalid_profile _ _ _) as [[|] | m]; try reflexivity.
  destruct (profile _ _ _) as [data | m]; [|reflexivity].
  cbv zeta; destruct (net1 (recommend_call data)); discriminate.
Qed.

Lemma number_passes (x : number) :
  JsNumber.falsy x = false ->
  ToBoolean (Json (JNumber x)) = true /\ isNaN (Json (JNumber x)) = Normal false.
Proof.
  intros H; unfold ToBoolean, isNaN, ToNumber, bind; rewrite H.
  split; [reflexivity|].
  unfold JsNumber.falsy in H; apply orb_false_iff in H; destruct H as [_ H].
  unfold JsNumber.isNaN; rewrite H; reflexivity.
Qed.

(** The validation and the coercion disagree on booleans: [true] is truthy
    and [isNaN(true)] is false, so a request with [age: true] and two
    numbers other than [0] and [NaN] passes the validation, while
    [parseFloat(true)] is [NaN]: exactly one call is made, and its [age] is
    [NaN]. *)
Theorem recommendations_forwards_true_as_nan
        (net : network) (body : object json) (height weight : number) :
  get_value body "age" = Json (JBool true) ->
  get_value body "height" = Json (JNumber height) ->
  get_value body "weight" = Json (JNumber weight) ->
  JsNumber.falsy height = false ->
  JsNumber.falsy weight = false ->
  exists h w,
    fst (recommendations net body)
    = [recommend_call (JObject [("age", JNumber nan); ("height", JNumber h);
                                ("weight", JNumber w)])].
Proof.
  intros Hage Hheight Hweight Hh Hw.
  destruct (number_passes height Hh) as [Hth Hnh].
  destruct (number_passes weight Hw) as [Htw Hnw].
  rewrite recommendations_calls, Hage, Hheight, Hweight.
  unfold invalid_profile; rewrite Hth, Htw, Hnh, Hnw.
  change (ToBoolean (Json (JBool true))) with true.
  change (isNaN (Json (JBool true))) with (@Normal bool false).
  cbn [negb orb bind].
  unfold profile.
  change (parseFloat (Json (JBool true))) with (@Normal number nan).
  cbn [bind parseFloat ToString json_to_string].
  eexists; eexists; reflexivity.
Qed.

Lemma recommendations_forwards_true_as_nan_witness :
  exists h w,
    fst (recommendations Sample.online
           (Sample.profile_body (JBool true) (JNumber 170) (JNumber 60)))
    = [recommend_call (JObject [("age", JNumber nan); ("height", JNumber h);
                                ("weight", JNumber w)])].
Proof.
  apply (recommendations_forwards_true_as_nan Sample.online
           (Sample.profile_body (JBool true) (JNumber 170) (JNumber 60)) 170 60);
    reflexivity.
Defined.

End ProxyCalls.

(** ** GET /api/health: what it reports when the call succeeds *)
Module HealthShape.
Import Js Server.

(** When the health call succeeds with a payload other than [null], the
    route answers 200 with exactly [expressServer: 'ok'] and a truthy
    [pythonServer], and no [error]: [pythonServer] is the payload's [status]
    when that is truthy, and ['ok'] otherwise (no [status], or a payload
    that is not an object, or a falsy [status]). *)
Theorem health_reports_truthy_status (net : network) (r : upstream) :
  net health_call = Resolved r ->
  up_data r <> JNull ->
  exists reported,
    health net
    = ([health_call],
       Responded {| status := 200;
                    body := JObject [("expressServer", JString "ok");
                                     ("pythonServer", reported)] |})
    /\ ToBoolean (Json reported) = true
    /\ ((exists props, up_data r = JObject props
                       /\ own props "status" = Some reported)
        \/ reported = JString "ok").
Proof.
  intros Hnet Hdata; unfold health, health_body; rewrite Hnet.
  destruct (up_data r) as [| b | x | s | items | props] eqn:Hpayload;
    try (exists (JString "ok"); repeat split; right; reflexivity).
  - contradiction.
  - unfold get_field, get_value, get.
    destruct (own props "status") as [st|] eqn:Hst.
    + unfold or_else; destruct (ToBoolean (Json st)) eqn:Htruthy.
      * exists st; repeat split; [exact Htruthy|].
        left; exists props; split; [reflexivity | exact Hst].
      * exists (JString "ok"); repeat split; right; reflexivity.
    + exists (JString "ok"); repeat split; right; reflexivity.
Qed.

Lemma health_reports_truthy_status_witness :
  exists reported,
    health Sample.online
    = ([health_call],
       Responded {| status := 200;
                    body := JObject [("expressServer", JString "ok");
                                     ("pythonServer", reported)] |})
    /\ ToBoolean (Json reported) = true
    /\ ((exists props,
            up_data {| up_status := 200;
                       up_data := JObject [("status", JString "ok")] |}
            = JObject props
            /\ own props "status" = Some reported)
        \/ reported = JString "ok").
Proof.
  apply (health_reports_truthy_status Sample.online
           {| up_status := 200; up_data := JObject [("status", JString "ok")] |});
    [reflexivity | discriminate].
Defined.

(** When the health call succeeds with the payload [null], reading
    [data.status] throws inside the [try] block, and the route reports the
    remote service as offline, with the message of that error, although the
    service answered. *)
Theorem health_null_payload_reported_offline (net : network) (r : upstream) :
  net health_call = Resolved r ->
  up_data r = JNull ->
  exists reason,
    health net
    = ([health_call],
       Responded
         {| status := 200;
            body := JObject [("expressServer", JString "ok");
                             ("pythonServer", JString "offline");
                             ("error", JString reason)] |}).
Proof.
  intros Hnet Hdata; unfold health, health_body; rewrite Hnet, Hdata.
  eexists; reflexivity.
Qed.

Lemma health_null_payload_reported_offline_witness :
  exists reason,
    health (fun _ => Resolved {| up_status := 200; up_data := JNull |})
    = ([health_call],
       Responded
         {| status := 200;
            body := JObject [("expressServer", JString "ok");
                             ("pythonServer", JString "offline");
                             ("error", JString reason)] |}).
Proof.
  apply (health_null_payload_reported_offline
           (fun _ => Resolved {| up_status := 200; up_data := JNull |})
           {| up_status := 200; up_data := JNull |});
    reflexivity.
Defined.

End HealthShape.

(** ** The routes together *)
Module RoutingTable.
Import Js Server.

Section Routes.
Variable w : catalog.
Variable dist : string -> option string.
Variable net : network.

(** The hand-back of the legacy route reaches the [/api/recommend]
    handler. *)
Lemma handle_handed_back (fuel : nat) (req : request) :
  is_post (method req) = true ->
  handle w dist net (S fuel) (with_url req "/api/recommend")
  = Some ([], Responded (recommend w (req_body req))).
Proof.
  intros Hpost; destruct req as [[] u body]; try discriminate Hpost.
  reflexivity.
Qed.

(** The routing of a request, the hand-back resolved. *)
Lemma handle_table (fuel : nat) (req : request) :
  handle w dist net (S (S fuel)) req
  = match (if is_get (method req) then dist (pathname (url req)) else None) with
    | Some file => Some ([], SentFile file)
    | None =>
        if is_post (method req) && matches "/api/recommend" (url req) then
          Some ([], Responded (recommend w (req_body req)))
        else if is_post (method req) && matches "/recommend" (url req) then
          Some ([], Responded (recommend w (req_body req)))
        else if is_post (method req) && matches "/api/recommendations" (url req) then
          Some (recommendations net (req_body req))
        else if is_get (method req) && matches "/api/health" (url req) then
          Some (health net)
        else if is_get (method req) then Some ([], SentFile "dist/index.html")
        else Some ([], NotFound)
    end.
Proof.
  cbn [handle]; unfold dispatch at 1.
  destruct (if is_get (method req) then dist (pathname (url req)) else None);
    [reflexivity|].
  destruct (is_post (method req) && matches "/api/recommend" (url req));
    [reflexivity|].
  destruct (is_post (method req)) eqn:Hpost; [|reflexivity].
  destruct (matches "/recommend" (url req)); [|reflexivity].
  cbn [andb]; apply (handle_handed_back fuel req Hpost).
Qed.

(** Every request is routed to an end with one hand-back at most: two
    units of fuel give an answer, and more fuel gives the same one. *)
Theorem handle_answers (fuel fuel' : nat) (req : request) :
  exists answer,
    handle w dist net (S (S fuel)) req = Some answer
    /\ handle w dist net (S (S fuel')) req = Some answer.
Proof.
  rewrite !handle_table.
  destruct (if is_get (method req) then dist (pathname (url req)) else None);
    [eexists; split; reflexivity|].
  repeat match goal with
         | |- context [if ?c then _ else _] => destruct c
         end; eexists; split; reflexivity.
Qed.

Lemma recommendations_calls_cases (body : object json) :
  fst (recommendations net body) = []
  \/ exists data, fst (recommendations net body) = [recommend_call data].
Proof.
  rewrite ProxyCalls.recommendations_calls.
  destruct (invalid_profile _ _ _) as [[|] | m]; try (left; reflexivity).
  destruct (profile _ _ _) as [data | m]; [|left; reflexivity].
  right; exists data; reflexivity.
Qed.

(** Only two routes reach the remote service, each with one call for a
    request: a POST that [/api/recommendations] takes, and a GET or HEAD
    that [/api/health] takes.  Every other request, and every request that
    [express.static] serves, is answered without a call. *)
Theorem handle_calls (fuel : nat) (req : request)
        (calls : list outbound) (out : outcome) :
  handle w dist net (S (S fuel)) req = Some (calls, out) ->
  calls = []
  \/ (is_post (method req) = true
      /\ matches "/api/recommendations" (url req) = true
      /\ exists data, calls = [recommend_call data])
  \/ (is_get (method req) = true
      /\ matches "/api/health" (url req) = true
      /\ dist (pathname (url req)) = None
      /\ calls = [health_call]).
Proof.
  rewrite handle_table.
  destruct (is_get (method req)) eqn:Hget;
    destruct (is_post (method req)) eqn:Hpost;
    try (destruct (dist (pathname (url req))) eqn:Hfile);
    cbn [andb];
    try (intros [= <- _]; left; reflexivity);
    repeat match goal with
           | |- context [if ?c then _ else _] => destruct c eqn:?
           end;
    try (intros [= <- _]; left; reflexivity).
  all: intros Hres.
  all: try (unfold health in Hres; injection Hres as <- _;
            right; right; repeat split; reflexivity).
  all: injection Hres as Hres.
  all: destruct (recommendations_calls_cases (req_body req))
         as [Hnone | [data Hone]];
       [ left; rewrite Hres in Hnone; exact Hnone
       | right; left; repeat split; exists data; rewrite Hres in Hone; exact Hone ].
Qed.

Lemma profile_route_is_apart (u : string) :
  matches "/api/recommendations" u = true ->
  matches "/api/recommend" u = false /\ matches "/recommend" u = false.
Proof.
  unfold matches; intros H.
  apply orb_true_iff in H; destruct H as [H | H];
    apply String.eqb_eq in H; rewrite H; split; reflexivity.
Qed.

(** A POST that [/api/recommendations] takes is answered by that route's
    handler: neither [/api/recommend], registered before it, nor the legacy
    route takes it, although the paths share a prefix. *)
Theorem recommendations_route_reached (fuel : nat) (req : request) :
  is_post (method req) = true ->
  matches "/api/recommendations" (url req) = true ->
  handle w dist net (S (S fuel)) req = Some (recommendations net (req_body req)).
Proof.
  intros Hpost Hmatch; rewrite handle_table.
  destruct (profile_route_is_apart (url req) Hmatch) as [H1 H2].
  assert (is_get (method req) = false) as Hget
    by (destruct (method req); try discriminate Hpost; reflexivity).
  rewrite Hget, Hpost, H1, H2, Hmatch; reflexivity.
Qed.

(** The only requests that can be left without a response are those that
    [/api/recommendations] takes: every other request is answered. *)
Theorem handle_unanswered (fuel : nat) (req : request)
        (calls : list outbound) (reason : string) :
  handle w dist net (S (S fuel)) req = Some (calls, Unhandled reason) ->
  is_post (method req) = true
  /\ matches "/api/recommendations" (url req) = true.
Proof.
  rewrite handle_table.
  destruct (if is_get (method req) then dist (pathname (url req)) else None);
    [discriminate|].
  destruct (is_post (method req)); cbn [andb];
    repeat match goal with
           | |- context [if ?c then _ else _] => destruct c eqn:?
           end;
    try discriminate; try (unfold health; discriminate).
  intros _; split; reflexivity.
Qed.

(** A GET or HEAD request is always served, in this order of precedence:
    the file that [express.static] has for its path, if any, even on the
    path of the health route; else the health report on [/api/health];
    else the entry document of the front end, on every other path, the
    paths of the POST routes included. *)
Theorem get_is_served (fuel : nat) (req : request) :
  is_get (method req) = true ->
  handle w dist net (S (S fuel)) req
  = Some match dist (pathname (url req)) with
         | Some file => ([], SentFile file)
         | None =>
             if matches "/api/health" (url req) then health net
             else ([], SentFile "dist/index.html")
         end.
Proof.
  intros Hget; rewrite handle_table, Hget.
  destruct (dist (pathname (url req))); [reflexivity|].
  assert (is_post (method req) = false) as ->
    by (destruct (method req); try discriminate Hget; reflexivity).
  cbn [andb]; destruct (matches "/api/health" (url req)); reflexivity.
Qed.

(** The fallback route takes GET and HEAD only: a PUT, PATCH or DELETE on
    any path, and a POST that none of the three POST routes takes, gets the
    framework's 404, and no call is made. *)
Theorem other_requests_not_found (fuel : nat) (req : request) :
  is_get (method req) = false ->
  is_post (method req) = false
  \/ (matches "/api/recommend" (url req) = false
      /\ matches "/recommend" (url req) = false
      /\ matches "/api/recommendations" (url req) = false) ->
  handle w dist net (S (S fuel)) req = Some ([], NotFound).
Proof.
  intros Hget Hother; rewrite handle_table, Hget.
  destruct Hother as [-> | [-> [-> ->]]]; [reflexivity|].
  rewrite !andb_false_r; reflexivity.
Qed.

End Routes.

Lemma handle_calls_witness :
  [recommend_call (JObject [("age", JNumber 25%float); ("height", JNumber 170%float);
                            ("weight", JNumber 60%float)])] = []
  \/ (is_post POST = true
      /\ matches "/api/recommendations" "/api/recommendations" = true
      /\ exists data,
           [recommend_call (JObject [("age", JNumber 25%float);
                                     ("height", JNumber 170%float);
                                     ("weight", JNumber 60%float)])]
           = [recommend_call data])
  \/ (is_get POST = true
      /\ matches "/api/health" "/api/recommendations" = true
      /\ Sample.no_files (pathname "/api/recommendations") = None
      /\ [recommend_call (JObject [("age", JNumber 25%float);
                                   ("height", JNumber 170%float);
                                   ("weight", JNumber 60%float)])]
         = [health_call]).
Proof.
  apply (handle_calls Sample.workouts Sample.no_files Sample.refused 0
           {| method := POST; url := "/api/recommendations";
              req_body := Sample.profile_body (JNumber 25%float) (JNumber 170%float)
                                              (JNumber 60%float) |}
           _
           (Responded (errorResponse 503
                         "Python server is not available. Please try again later."))).
  reflexivity.
Defined.

Lemma recommendations_route_reached_witness :
  handle Sample.workouts Sample.no_files Sample.refused 2
         {| method := POST; url := "/api/recommendations/";
            req_body := Sample.profile_body (JNumber 0%float) JNull JNull |}
  = Some (recommendations Sample.refused
            (Sample.profile_body (JNumber 0%float) JNull JNull)).
Proof.
  apply (recommendations_route_reached Sample.workouts Sample.no_files
           Sample.refused 0
           {| method := POST; url := "/api/recommendations/";
              req_body := Sample.profile_body (JNumber 0%float) JNull JNull |});
    reflexivity.
Defined.

Lemma handle_unanswered_witness :
  is_post POST = true /\ matches "/api/recommendations" "/api/recommendations" = true.
Proof.
  apply (handle_unanswered Sample.workouts Sample.no_files Sample.null_payload 0
           {| method := POST; url := "/api/recommendations";
              req_body := Sample.profile_body (JNumber 25%float) (JNumber 170%float)
                                              (JNumber 60%float) |}
           [recommend_call (JObject [("age", JNumber 25%float);
                                     ("height", JNumber 170%float);
                                     ("weight", JNumber 60%float)])]
           "Cannot read properties of null (reading 'error')").
  reflexivity.
Defined.

Lemma get_is_served_witness :
  handle Sample.workouts Sample.no_files Sample.online 2
         {| method := GET; url := "/api/recommend"; req_body := [] |}
  = Some ([], SentFile "dist/index.html").
Proof.
  apply (get_is_served Sample.workouts Sample.no_files Sample.online 0
           {| method := GET; url := "/api/recommend"; req_body := [] |}).
  reflexivity.
Defined.

Lemma other_requests_not_found_witness :
  handle Sample.workouts Sample.no_files Sample.online 2
         {| method := POST; url := "/api/health"; req_body := [] |}
  = Some ([], NotFound).
Proof.
  apply (other_requests_not_found Sample.workouts Sample.no_files Sample.online 0
           {| method := POST; url := "/api/health"; req_body := [] |});
    [reflexivity | right; repeat split].
Defined.

End RoutingTable.

(** ** The mapper applied twice, and the answers of the proxy route *)
Module MapperAndProxyShape.
Import JsNumber Js Server.

(** On strings the mapper is idempotent: mapping the result of a mapping
    changes nothing, be the result a label of the table, the string itself,
    or a member inherited from [Object.prototype]. *)
Theorem mapDifficultyLevel_idempotent (s : string) :
  (mapped <- mapDifficultyLevel (Json (JString s)) ;; mapDifficultyLevel mapped)
  = mapDifficultyLevel (Json (JString s)).
Proof.
  rewrite RecommendFacts.mapDifficultyLevel_string; cbn [bind].
  unfold get_value, get.
  destruct (own difficultyMap s) as [label|] eqn:Hown.
  - apply RecommendRelations.own_in in Hown.
    destruct Hown as [[= <- <-] | [[= <- <-] | [[= <- <-] | []]]]; reflexivity.
  - destruct (in_prototype s) eqn:Hproto.
    + unfold in_prototype in Hproto; apply existsb_exists in Hproto.
      destruct Hproto as [name [Hin Heq]]; apply String.eqb_eq in Heq; subst name.
      repeat (destruct Hin as [<- | Hin]; [reflexivity|]); contradiction.
    + change (or_else Undefined (Json (JString s))) with (Json (JString s)).
      rewrite RecommendFacts.mapDifficultyLevel_string.
      unfold get_value, get; rewrite Hown, Hproto; reflexivity.
Qed.

Lemma classify_shape (e : error) (r : response) :
  classify e = Normal r ->
  exists st message,
    r = errorResponse st message
    /\ (st = 503%Z \/ st = 500%Z
        \/ exists up, response_of e = Some up /\ st = up_status up).
Proof.
  unfold classify.
  destruct (strict_equal (code e) (Json (JString "ECONNREFUSED"))
            || strict_equal (code e) (Json (JString "ENOTFOUND"))).
  - intros [= <-]; eexists; eexists; split; [reflexivity | left; reflexivity].
  - destruct (response_of e) as [up|].
    + destruct (get_field (up_data up) "error") as [detail|]; cbn [bind];
        [|discriminate].
      destruct (ToString _) as [text|]; cbn [bind]; [|discriminate].
      intros [= <-]; eexists; eexists; split; [reflexivity|].
      right; right; exists up; split; reflexivity.
    + intros [= <-]; eexists; eexists; split;
        [reflexivity | right; left; reflexivity].
Qed.

(** Every response of the route is either the body of a successful answer
    of the remote service, sent with status 200, or an error object
    [{success: false, error}] whose status is 400, 503, 500, or the status
    of the remote service's own error response. *)
Theorem recommendations_answers
        (net : network) (body : object json) (r : response) :
  snd (recommendations net body) = Responded r ->
  (exists data up,
      fst (recommendations net body) = [recommend_call data]
      /\ net (recommend_call data) = Resolved up
      /\ r = {| status := 200; body := up_data up |})
  \/ (exists st message,
         r = {| status := st;
                body := JObject [("success", JBool false);
                                 ("error", JString message)] |}
         /\ (st = 400%Z \/ st = 503%Z \/ st = 500%Z
             \/ exists data e up,
                  net (recommend_call data) = Rejected e
                  /\ response_of e = Some up /\ st = up_status up)).
Proof.
  unfold recommendations.
  destruct (invalid_profile _ _ _) as [[|] | m]; cbn [snd fst].
  - intros [= <-]; right; eexists; eexists; split; [reflexivity | left; reflexivity].
  - destruct (profile _ _ _) as [data | m]; cbn [snd fst].
    + cbv zeta; destruct (net (recommend_call data)) as [up | e] eqn:Hnet;
        cbn [snd fst].
      * intros [= <-]; left; exists data, up; repeat split; exact Hnet.
      * destruct (classify e) as [r' | m] eqn:Hclass; cbn [settle];
          [|discriminate].
        intros [= <-].
        destruct (classify_shape e r' Hclass) as [st [message [-> Hst]]].
        right; exists st, message; split; [reflexivity|].
        destruct Hst as [-> | [-> | [up [Hup ->]]]];
          [right; left; reflexivity | right; right; left; reflexivity|].
        right; right; right; exists data, e, up; repeat split; assumption.
    + intros [= <-]; right; eexists; eexists; split;
        [reflexivity | right; right; left; reflexivity].
  - discriminate.
Qed.

Lemma recommendations_answers_witness :
  (exists data up,
      fst (recommendations Sample.refused
             (Sample.profile_body (JString "25") (JString "170") (JString "60")))
      = [recommend_call data]
      /\ Sample.refused (recommend_call data) = Resolved up
      /\ errorResponse 503 "Python server is not available. Please try again later."
         = {| status := 200; body := up_data up |})
  \/ (exists st message,
         errorResponse 503 "Python server is not available. Please try again later."
         = {| status := st;
              body := JObject [("success", JBool false);
                               ("error", JString message)] |}
         /\ (st = 400%Z \/ st = 503%Z \/ st = 500%Z
             \/ exists data e up,
                  Sample.refused (recommend_call data) = Rejected e
                  /\ response_of e = Some up /\ st = up_status up)).
Proof.
  apply (recommendations_answers Sample.refused
           (Sample.profile_body (JString "25") (JString "170") (JString "60"))).
  vm_compute; reflexivity.
Defined.

End MapperAndProxyShape.
